(** * Image conversion page: a model of [src/app/(public)/png-to-jpg/page.tsx]

    The page is one React component, [PngToJpgPage].  Its five [useState]
    hooks, the pending snackbar timeout and the in-flight [FileReader] /
    [Image] loads form the state; every event handler of the component is
    a state transformer, written below in the order and with the names of
    the source.  The browser (file reading, image decoding, canvas
    rasterisation and serialisation) is a record of functions, [Host]. *)

From Stdlib Require Import ZArith QArith_base String Lia.
From stdpp Require Import base list strings.

(** ** Configuration table *)

(** [type ConverterConfig] (page.tsx, lines 6-11). *)
Record ConverterConfig := {
  label : string;
  inputMime : string;
  outputMime : string;
  downloadExt : string;
}.

Definition docx : string :=
  "application/vnd.openxmlformats-officedocument.wordprocessingml.document".

(** [const converters] (lines 20-27). *)
Definition converters : list ConverterConfig := [
  {| label := "JPG to PNG"; inputMime := "image/jpeg"; outputMime := "image/png"; downloadExt := "png" |};
  {| label := "PNG to JPG"; inputMime := "image/png"; outputMime := "image/jpeg"; downloadExt := "jpg" |};
  {| label := "HEIC to JPG"; inputMime := "image/heic"; outputMime := "image/jpeg"; downloadExt := "jpg" |};
  {| label := "WebP to JPEG"; inputMime := "image/webp"; outputMime := "image/jpeg"; downloadExt := "jpg" |};
  {| label := "Word to JPEG"; inputMime := docx; outputMime := "image/jpeg"; downloadExt := "jpg" |};
  {| label := "JPEG to Word"; inputMime := "image/jpeg"; outputMime := docx; downloadExt := "docx" |}
].

(** The entries the statements below single out, by position. *)
Definition pngToJpg : ConverterConfig :=
  {| label := "PNG to JPG"; inputMime := "image/png"; outputMime := "image/jpeg"; downloadExt := "jpg" |}.
Definition wordToJpeg : ConverterConfig :=
  {| label := "Word to JPEG"; inputMime := docx; outputMime := "image/jpeg"; downloadExt := "jpg" |}.
Definition jpegToWord : ConverterConfig :=
  {| label := "JPEG to Word"; inputMime := "image/jpeg"; outputMime := docx; downloadExt := "docx" |}.

(** The two presets [convertFile] treats as special cases (lines 49-52). *)
Definition document (c : ConverterConfig) : Prop :=
  label c = "Word to JPEG" \/ label c = "JPEG to Word".

(** ** Browser objects *)

(** A DOM [File]: the declared MIME type and the raw bytes. *)
Record File := {
  type : string;
  bytes : list Byte.byte;
}.

(** One pixel, four 8-bit channels, not premultiplied. *)
Record RGBA := { red : Z; green : Z; blue : Z; alpha : Z }.

Definition transparent : RGBA := {| red := 0; green := 0; blue := 0; alpha := 0 |}.
Definition black : RGBA := {| red := 0; green := 0; blue := 0; alpha := 255 |}.
Definition white : RGBA := {| red := 255; green := 255; blue := 255; alpha := 255 |}.

(** Source-over compositing of [src] on [dst], the canvas default
    ([globalCompositeOperation = "source-over"]), on 8-bit channels. *)
Definition over (src dst : RGBA) : RGBA :=
  let a := (alpha src * 255 + alpha dst * (255 - alpha src))%Z in
  let ch (cs cd : Z) :=
    if (a =? 0)%Z then 0%Z
    else ((cs * alpha src * 255 + cd * alpha dst * (255 - alpha src)) / a)%Z in
  {| red := ch (red src) (red dst);
     green := ch (green src) (green dst);
     blue := ch (blue src) (blue dst);
     alpha := (a / 255)%Z |}.

(** A decoded [HTMLImageElement].  The element is never attached to the
    document and gets no [width]/[height] attribute, so [img.width] and
    [img.height] are the natural dimensions of the bitmap. *)
Module Image.
Record t := {
  width : nat;
  height : nat;
  pixels : nat -> nat -> RGBA;
}.
End Image.

(** An [HTMLCanvasElement] together with its 2d context state. *)
Module Canvas.
Record t := {
  width : nat;
  height : nat;
  fillStyle : RGBA;
  px : nat -> nat -> RGBA;
}.

(** [document.createElement("canvas")]: 300 x 150, transparent black,
    [fillStyle] black. *)
Definition create : t :=
  {| width := 300; height := 150; fillStyle := black; px := fun _ _ => transparent |}.

(** [canvas.width = w]: resizes and clears the bitmap. *)
Definition set_width (w : nat) (c : t) : t :=
  {| width := w; height := height c; fillStyle := black; px := fun _ _ => transparent |}.

(** [canvas.height = h]. *)
Definition set_height (h : nat) (c : t) : t :=
  {| width := width c; height := h; fillStyle := black; px := fun _ _ => transparent |}.

(** The CSS colour keywords the page uses. *)
Definition css_color (s : string) : option RGBA :=
  if String.eqb s "white" then Some white
  else if String.eqb s "black" then Some black
  else if String.eqb s "transparent" then Some transparent
  else None.

(** [ctx.fillStyle = s]; a string that is no colour is ignored. *)
Definition set_fillStyle (s : string) (c : t) : t :=
  match css_color s with
  | Some col => {| width := width c; height := height c; fillStyle := col; px := px c |}
  | None => c
  end.

Definition inside (x y w h i j : nat) : bool :=
  (x <=? i) && (i <? x + w) && (y <=? j) && (j <? y + h).

(** [ctx.fillRect(x, y, w, h)]. *)
Definition fillRect (x y w h : nat) (c : t) : t :=
  {| width := width c; height := height c; fillStyle := fillStyle c;
     px := fun i j =>
       if inside x y w h i j && inside 0 0 (width c) (height c) i j
       then over (fillStyle c) (px c i j) else px c i j |}.

(** [ctx.drawImage(img, dx, dy)]. *)
Definition drawImage (img : Image.t) (dx dy : nat) (c : t) : t :=
  {| width := width c; height := height c; fillStyle := fillStyle c;
     px := fun i j =>
       if inside dx dy (Image.width img) (Image.height img) i j
          && inside 0 0 (width c) (height c) i j
       then over (Image.pixels img (i - dx) (j - dy)) (px c i j) else px c i j |}.
End Canvas.

(** What the page needs from the browser. *)
Record Host := {
  (** [reader.readAsDataURL(file)]: the data URL handed to [reader.onload],
      or [None] when the read fails and [onload] never fires. *)
  readAsDataURL : File -> option string;
  (** Decoding of [img.src]: the image handed to [img.onload], or [None]
      when the data is no image and [onload] never fires. *)
  decode : string -> option Image.t;
  (** Whether [canvas.getContext("2d")] returns a context. *)
  getContext2d : Canvas.t -> bool;
  (** Serialisation of the bitmap as a file of the requested type and
      quality: the type actually produced and the base64 payload. *)
  serialize : Canvas.t -> string -> Q -> option (string * string);
}.

(** [canvas.toDataURL(type, quality)] as the HTML standard defines it. *)
Definition toDataURL (host : Host) (c : Canvas.t) (mime : string) (quality : Q) : string :=
  if (Canvas.width c =? 0) || (Canvas.height c =? 0) then "data:,"
  else match serialize host c mime quality with
       | Some (actual, payload) => "data:" +:+ actual +:+ ";base64," +:+ payload
       | None => "data:,"
       end.

(** ** Component state *)

(** A load in flight.  Both callbacks are closures of the render in which
    [convertFile] ran, so they keep that render's [activeConverter]. *)
Inductive Task :=
| Reading (file : File) (activeConverter : ConverterConfig)
| Loading (src : string) (activeConverter : ConverterConfig).

Record State := {
  outputUrl : option string;
  error : option string;
  isDragging : bool;
  snackbar : option string;
  activeIndex : nat;
  (** milliseconds left on the pending [setTimeout] of the snackbar effect *)
  timer : option nat;
  (** [FileReader]s and [Image]s whose [onload] has not fired yet *)
  tasks : list Task;
}.

(** The state after the first render (lines 14-17 and 29). *)
Definition init : State :=
  {| outputUrl := None; error := None; isDragging := false; snackbar := None;
     activeIndex := 1; timer := None; tasks := [] |}.

Definition Handler := State -> State.

Definition andThen (f g : Handler) : Handler := fun s => g (f s).
Notation "f >>> g" := (andThen f g) (at level 61, left associativity).

Definition skip : Handler := fun s => s.

Definition setOutputUrl (v : option string) : Handler := fun s =>
  {| outputUrl := v; error := error s; isDragging := isDragging s; snackbar := snackbar s;
     activeIndex := activeIndex s; timer := timer s; tasks := tasks s |}.

Definition setError (v : option string) : Handler := fun s =>
  {| outputUrl := outputUrl s; error := v; isDragging := isDragging s; snackbar := snackbar s;
     activeIndex := activeIndex s; timer := timer s; tasks := tasks s |}.

Definition setIsDragging (v : bool) : Handler := fun s =>
  {| outputUrl := outputUrl s; error := error s; isDragging := v; snackbar := snackbar s;
     activeIndex := activeIndex s; timer := timer s; tasks := tasks s |}.

Definition setSnackbar (v : option string) : Handler := fun s =>
  {| outputUrl := outputUrl s; error := error s; isDragging := isDragging s; snackbar := v;
     activeIndex := activeIndex s; timer := timer s; tasks := tasks s |}.

Definition setActiveIndex (v : nat) : Handler := fun s =>
  {| outputUrl := outputUrl s; error := error s; isDragging := isDragging s; snackbar := snackbar s;
     activeIndex := v; timer := timer s; tasks := tasks s |}.

Definition setTimer (v : option nat) : Handler := fun s =>
  {| outputUrl := outputUrl s; error := error s; isDragging := isDragging s; snackbar := snackbar s;
     activeIndex := activeIndex s; timer := v; tasks := tasks s |}.

Definition setTasks (v : list Task) : Handler := fun s =>
  {| outputUrl := outputUrl s; error := error s; isDragging := isDragging s; snackbar := snackbar s;
     activeIndex := activeIndex s; timer := timer s; tasks := v |}.

(** JavaScript truthiness of a [string | null]. *)
Definition truthy (v : option string) : bool :=
  match v with
  | Some s => negb (String.eqb s "")
  | None => false
  end.

(** [const activeConverter = converters[activeIndex]] (line 30); [None] is
    JavaScript's [undefined]. *)
Definition activeConverter (s : State) : option ConverterConfig :=
  converters !! activeIndex s.

(** ** The conversion routine *)

Definition typeMismatch (c : ConverterConfig) : string :=
  "❌ Please upload a valid " +:+ inputMime c +:+ " file for " +:+ label c.

Definition unsupportedConversion : string :=
  "⚠ This conversion requires backend support. Not supported in browser.".

(** The quality argument of [toDataURL], the literal [0.9]. *)
Definition quality : Q := Qmake 9 10.

(** Body of [img.onload] (lines 63-80). *)
Definition img_onload (host : Host) (activeConverter : ConverterConfig)
    (img : Image.t) : Handler :=
  let canvas := Canvas.create in
  let canvas := Canvas.set_width (Image.width img) canvas in
  let canvas := Canvas.set_height (Image.height img) canvas in
  if getContext2d host canvas then
    let ctx := canvas in
    let ctx :=
      if String.eqb (outputMime activeConverter) "image/jpeg" then
        Canvas.fillRect 0 0 (Canvas.width canvas) (Canvas.height canvas)
          (Canvas.set_fillStyle "white" ctx)
      else ctx in
    let ctx := Canvas.drawImage img 0 0 ctx in
    let dataUrl := toDataURL host ctx (outputMime activeConverter) quality in
    setOutputUrl (Some dataUrl)
  else skip.

(** [convertFile] (lines 41-83), up to and including
    [reader.readAsDataURL(file)]. *)
Definition convertFile (activeConverter : ConverterConfig) (file : File) : Handler :=
  if negb (String.eqb (type file) (inputMime activeConverter)) then
    setOutputUrl None >>>
    setSnackbar (Some (typeMismatch activeConverter))
  else if String.eqb (label activeConverter) "Word to JPEG"
          || String.eqb (label activeConverter) "JPEG to Word" then
    setOutputUrl None >>>
    setSnackbar (Some unsupportedConversion)
  else
    fun s => setTasks (tasks s ++ [Reading file activeConverter]) s.

(** ** Event handlers *)

(** [handleFileChange] and the file part of [handleDrop]:
    [const file = files?.[0]; if (file) convertFile(file)]. *)
Definition convertFirst (activeConverter : ConverterConfig) (files : list File) : Handler :=
  match files !! 0 with
  | Some file => convertFile activeConverter file
  | None => skip
  end.

Definition handleFileChange (activeConverter : ConverterConfig) (files : list File) : Handler :=
  convertFirst activeConverter files.

Definition handleDragOver : Handler := setIsDragging true.
Definition handleDragEnter : Handler := setIsDragging true.
Definition handleDragLeave : Handler := setIsDragging false.

Definition handleDrop (activeConverter : ConverterConfig) (files : list File) : Handler :=
  setIsDragging false >>> convertFirst activeConverter files.

(** [handleClear] (lines 116-119). *)
Definition handleClear : Handler :=
  setOutputUrl None >>> setError None.

(** The [onClick] of the tab button rendered for [index] (lines 129-133). *)
Definition tabClick (index : nat) : Handler :=
  setActiveIndex index >>> setOutputUrl None >>> setError None.

(** [converters.map((item, index) => <button onClick=... />)]: one
    handler per rendered tab button. *)
Definition converterTabs : list Handler :=
  imap (fun index _ => tabClick index) converters.

(** ** Asynchronous completions and the snackbar timer *)

(** The [k]-th load in flight makes its next step: [reader.onload] turns
    a read into an image load (lines 59-61), [img.onload] runs the canvas
    code.  A failed read or a broken image ends the load: the source
    installs neither [onerror]. *)
Definition progress (host : Host) (k : nat) : Handler := fun s =>
  match tasks s !! k with
  | Some (Reading file conv) =>
      match readAsDataURL host file with
      | Some result => setTasks (<[k := Loading result conv]> (tasks s)) s
      | None => setTasks (delete k (tasks s)) s
      end
  | Some (Loading src conv) =>
      match decode host src with
      | Some img => (setTasks (delete k (tasks s)) >>> img_onload host conv img) s
      | None => setTasks (delete k (tasks s)) s
      end
  | None => s
  end.

(** The delay of the snackbar timeout, in milliseconds (line 35). *)
Definition snackbarDelay : nat := 3000.

(** One millisecond passes.  When the timeout is due its callback,
    [setSnackbar(null)], runs. *)
Definition tick : Handler := fun s =>
  match timer s with
  | None => s
  | Some 0 | Some 1 => (setTimer None >>> setSnackbar None) s
  | Some (S n) => setTimer (Some n) s
  end.

(** [useEffect(..., [snackbar])] (lines 33-38), run after a render whose
    previous value of [snackbar] was [prev].  React compares the
    dependency with [Object.is]; when it changed, the clean-up of the last
    run cancels its timeout and the effect body starts a new one if the
    snackbar is truthy. *)
Definition snackbarEffect (prev : option string) : Handler := fun s =>
  if decide (snackbar s = prev) then s
  else setTimer (if truthy (snackbar s) then Some snackbarDelay else None) s.

(** ** The page as a transition system *)

Inductive Event :=
| TabClick (k : nat)            (* click on the [k]-th button of the tab row *)
| MoreClick                     (* the [More...] button *)
| FileChange (files : list File)
| DragOver
| DragEnter
| DragLeave
| Drop (files : list File)
| ClearClick                    (* the [Clear Queue] button *)
| CrossClick                    (* the cross of the preview *)
| Progress (k : nat)            (* an [onload] of the [k]-th load fires *)
| Tick.                         (* one millisecond passes *)

Definition handle (host : Host) (activeConverter : ConverterConfig) (ev : Event) : Handler :=
  match ev with
  | TabClick k =>
      match converterTabs !! k with
      | Some onClick => onClick
      | None => skip
      end
  | MoreClick => skip
  | FileChange files => handleFileChange activeConverter files
  | DragOver => handleDragOver
  | DragEnter => handleDragEnter
  | DragLeave => handleDragLeave
  | Drop files => handleDrop activeConverter files
  | ClearClick => handleClear
  | CrossClick => fun s => if truthy (outputUrl s) then handleClear s else s
  | Progress k => progress host k
  | Tick => tick
  end.

(** One event: the handler runs in the closure of the current render,
    then React renders again and runs the effect.  [None] stands for a
    render that throws because [activeConverter] is [undefined]. *)
Definition dispatch (host : Host) (ev : Event) (s : State) : option State :=
  match activeConverter s with
  | Some conv => Some (snackbarEffect (snackbar s) (handle host conv ev s))
  | None => None
  end.

Fixpoint run (host : Host) (evs : list Event) (s : State) : option State :=
  match evs with
  | [] => Some s
  | ev :: evs' =>
      match dispatch host ev s with
      | Some s' => run host evs' s'
      | None => None
      end
  end.

(** Events the user causes, as opposed to the passing of time and the
    completion of a load. *)
Definition userAction (ev : Event) : bool :=
  match ev with
  | Tick | Progress _ => false
  | _ => true
  end.

(** The events that hand files to [convertFile]. *)
Definition isUpload (ev : Event) : bool :=
  match ev with
  | FileChange _ | Drop _ => true
  | _ => false
  end.

(** The milliseconds that pass during a sequence of events. *)
Fixpoint elapsed (evs : list Event) : nat :=
  match evs with
  | [] => 0
  | Tick :: evs' => S (elapsed evs')
  | _ :: evs' => elapsed evs'
  end.

Inductive reachable (host : Host) : State -> Prop :=
| reachable_init : reachable host init
| reachable_step s ev s' :
    reachable host s -> dispatch host ev s = Some s' -> reachable host s'.

(** A whole conversion with nothing in between: [convertFile], then the
    two [onload]s of the load it started (the last one in flight). *)
Definition convertAndLoad (host : Host) (activeConverter : ConverterConfig)
    (file : File) : Handler := fun s =>
  let k := length (tasks s) in
  (convertFile activeConverter file >>> progress host k >>> progress host k) s.

(** The canvas of [img.onload] once its [width] and [height] are set. *)
Definition canvasFor (img : Image.t) : Canvas.t :=
  Canvas.set_height (Image.height img)
    (Canvas.set_width (Image.width img) Canvas.create).

(** The canvas [img.onload] hands to [toDataURL]. *)
Definition rendered (activeConverter : ConverterConfig) (img : Image.t) : Canvas.t :=
  let canvas := canvasFor img in
  Canvas.drawImage img 0 0
    (if String.eqb (outputMime activeConverter) "image/jpeg" then
       Canvas.fillRect 0 0 (Canvas.width canvas) (Canvas.height canvas)
         (Canvas.set_fillStyle "white" canvas)
     else canvas).

(** ** What the component renders *)

(** [String.prototype.toUpperCase] on ASCII text, which is all the page
    passes to it (the [downloadExt] of a table entry): the letters [a-z]
    become [A-Z], every other byte stays. *)
Definition upperAscii (c : Ascii.ascii) : Ascii.ascii :=
  let n := Ascii.nat_of_ascii c in
  if (97 <=? n) && (n <=? 122) then Ascii.ascii_of_nat (n - 32) else c.

Fixpoint toUpperCase (s : string) : string :=
  match s with
  | EmptyString => EmptyString
  | String c s' => String (upperAscii c) (toUpperCase s')
  end.

(** The preview block (lines 178-195). *)
Record Preview := {
  previewSrc : string;       (* [<img src={outputUrl}>] *)
  href : string;             (* [<a href={outputUrl}>] *)
  download : string;         (* the suggested file name *)
  downloadText : string;     (* the text of the link *)
}.

(** The parts of the JSX (lines 121-198) that depend on the state. *)
Record View := {
  tabButtons : list (string * bool);   (* label and whether [activeTab] is set *)
  heading : string;
  accept : string;
  dragActive : bool;
  dropText : string;
  snackbarText : option string;        (* [{snackbar && <div>...</div>}] *)
  preview : option Preview;            (* [{outputUrl && (...)}] *)
}.

(** The render of the component; [None] when it throws because
    [activeConverter] is [undefined]. *)
Definition render (s : State) : option View :=
  match activeConverter s with
  | Some conv =>
      Some {|
        tabButtons :=
          imap (fun index item => (label item, bool_decide (activeIndex s = index)))
            converters;
        heading := label conv;
        accept := inputMime conv;
        dragActive := isDragging s;
        dropText := "Drop Your " +:+ inputMime conv +:+ " File Here";
        snackbarText := if truthy (snackbar s) then snackbar s else None;
        preview :=
          match outputUrl s with
          | Some url =>
              if truthy (Some url) then
                Some {| previewSrc := url; href := url;
                        download := "converted." +:+ downloadExt conv;
                        downloadText := "⬇ Download " +:+ toUpperCase (downloadExt conv) |}
              else None
          | None => None
          end
      |}
  | None => None
  end.



(** ** Sample data *)

Definition red_opaque : RGBA := {| red := 255; green := 0; blue := 0; alpha := 255 |}.

(** A 2 x 1 bitmap: a fully transparent pixel, then an opaque red one. *)
Definition sampleImage : Image.t :=
  {| Image.width := 2; Image.height := 1;
     Image.pixels := fun i _ => if i =? 0 then transparent else red_opaque |}.

Definition sampleHost : Host :=
  {| readAsDataURL := fun f => Some ("data:" +:+ type f +:+ ";base64,iVBORw0KGgo=");
     decode := fun _ => Some sampleImage;
     getContext2d := fun _ => true;
     serialize := fun _ mime _ => Some (mime, "/9j/4AAQSkZJRg==") |}.

(** The same browser, except that no 2d context can be had. *)
Definition noContextHost : Host :=
  {| readAsDataURL := readAsDataURL sampleHost;
     decode := decode sampleHost;
     getContext2d := fun _ => false;
     serialize := serialize sampleHost |}.

Definition pngFile : File := {| type := "image/png"; bytes := [] |}.
Definition docxFile : File := {| type := docx; bytes := [] |}.
Definition jpegFile : File := {| type := "image/jpeg"; bytes := [] |}.

(** The state after a JPEG file was uploaded under "PNG to JPG". *)
Definition afterMismatch : State :=
  snackbarEffect (snackbar init)
    (handle sampleHost pngToJpg (FileChange [jpegFile]) init).

(** The state once a PNG file was picked under "PNG to JPG" and its read
    is in flight. *)
Definition afterUpload : State :=
  snackbarEffect (snackbar init)
    (handle sampleHost pngToJpg (FileChange [pngFile]) init).

(** A browser on which every read fails. *)
Definition unreadableHost : Host :=
  {| readAsDataURL := fun _ => None;
     decode := decode sampleHost;
     getContext2d := getContext2d sampleHost;
     serialize := serialize sampleHost |}.

(** What the page shows in [afterMismatch]. *)
Definition mismatchView : View :=
  {| tabButtons := [("JPG to PNG", false); ("PNG to JPG", true);
                    ("HEIC to JPG", false); ("WebP to JPEG", false);
                    ("Word to JPEG", false); ("JPEG to Word", false)];
     heading := "PNG to JPG"; accept := "image/png"; dragActive := false;
     dropText := "Drop Your image/png File Here";
     snackbarText := Some (typeMismatch pngToJpg);
     preview := None |}.

(** * Properties *)

(** ** The configuration table *)

Lemma converters_length : length converters = 6.
Proof. reflexivity. Qed.

Lemma converters_pngToJpg : converters !! 1 = Some pngToJpg.
Proof. reflexivity. Qed.

Lemma converters_wordToJpeg : converters !! 4 = Some wordToJpeg.
Proof. reflexivity. Qed.

Lemma converters_jpegToWord : converters !! 5 = Some jpegToWord.
Proof. reflexivity. Qed.

(** The document presets of the table are exactly entries 4 and 5. *)
Lemma document_in_table (c : ConverterConfig) :
  c ∈ converters -> document c -> c = wordToJpeg \/ c = jpegToWord.
Proof.
  unfold converters. rewrite !elem_of_cons, elem_of_nil.
  intros [-> | [-> | [-> | [-> | [-> | [-> | []]]]]]] [H | H];
    try discriminate H; auto.
Qed.

(** The tab row has a button for an index exactly when the table has an
    entry for it. *)
Lemma converterTabs_lookup (k : nat) :
  converterTabs !! k = if decide (k < length converters) then Some (tabClick k) else None.
Proof.
  do 6 (destruct k as [| k]; [reflexivity |]).
  rewrite decide_False by (rewrite converters_length; lia). reflexivity.
Qed.

(** ** The three branches of [convertFile] *)

Lemma convertFile_mismatch (P : ConverterConfig) (F : File) :
  type F ≠ inputMime P ->
  convertFile P F = setOutputUrl None >>> setSnackbar (Some (typeMismatch P)).
Proof.
  intros H. unfold convertFile.
  apply String.eqb_neq in H. rewrite H. reflexivity.
Qed.

Lemma convertFile_document (P : ConverterConfig) (F : File) :
  type F = inputMime P -> document P ->
  convertFile P F = setOutputUrl None >>> setSnackbar (Some unsupportedConversion).
Proof.
  intros H D. unfold convertFile.
  apply String.eqb_eq in H. rewrite H. cbn [negb].
  destruct D as [D | D]; apply String.eqb_eq in D; rewrite D.
  - reflexivity.
  - rewrite orb_true_r. reflexivity.
Qed.

Lemma convertFile_supported (P : ConverterConfig) (F : File) (s : State) :
  type F = inputMime P -> ~ document P ->
  convertFile P F s = setTasks (tasks s ++ [Reading F P]) s.
Proof.
  intros H D. unfold convertFile.
  apply String.eqb_eq in H. rewrite H. cbn [negb].
  destruct (String.eqb_spec (label P) "Word to JPEG") as [E | _];
    [destruct D; left; exact E |].
  destruct (String.eqb_spec (label P) "JPEG to Word") as [E | _];
    [destruct D; right; exact E |].
  reflexivity.
Qed.

(** [convertFile] never touches the selection. *)
Lemma convertFile_activeIndex (P : ConverterConfig) (F : File) (s : State) :
  activeIndex (convertFile P F s) = activeIndex s.
Proof. unfold convertFile. repeat case_match; reflexivity. Qed.

(** C1. A file whose declared type differs from the input type of the
    active preset is rejected: the result is cleared, the notice becomes
    the type-mismatch message of that preset, and no load is started. *)
Theorem convertFile_rejects_wrong_type (P : ConverterConfig) (F : File) (s : State) :
  type F ≠ inputMime P ->
  outputUrl (convertFile P F s) = None /\
  snackbar (convertFile P F s) = Some (typeMismatch P) /\
  tasks (convertFile P F s) = tasks s.
Proof. intros H. rewrite (convertFile_mismatch P F H). auto. Qed.

Lemma convertFile_rejects_wrong_type_witness :
  type jpegFile ≠ inputMime pngToJpg /\
  outputUrl (convertFile pngToJpg jpegFile init) = None /\
  snackbar (convertFile pngToJpg jpegFile init) = Some (typeMismatch pngToJpg) /\
  tasks (convertFile pngToJpg jpegFile init) = tasks init.
Proof.
  split.
  - intros H; discriminate H.
  - apply (convertFile_rejects_wrong_type pngToJpg jpegFile init).
    intros H; discriminate H.
Defined.

(** The same at the level of the page: uploading or dropping such a file
    while [P] is the active preset. *)
Lemma upload_wrong_type (host : Host) (P : ConverterConfig) (F : File)
    (rest : list File) (s : State) :
  activeConverter s = Some P -> type F ≠ inputMime P ->
  exists s', dispatch host (FileChange (F :: rest)) s = Some s' /\
    outputUrl s' = None /\ snackbar s' = Some (typeMismatch P) /\ tasks s' = tasks s.
Proof.
  intros HP H. unfold dispatch. rewrite HP. eexists. split; [reflexivity |].
  cbn [handle handleFileChange convertFirst lookup list_lookup].
  rewrite (convertFile_mismatch P F H).
  unfold snackbarEffect. case_decide; auto.
Qed.

(** C2, as stated, fails: under "Word to JPEG" a PNG file gets the
    type-mismatch notice, not the unsupported-conversion notice. *)
Lemma document_preset_wrong_type_notice :
  exists s', run sampleHost [TabClick 4; FileChange [pngFile]] init = Some s' /\
    activeConverter s' = Some wordToJpeg /\
    snackbar s' = Some (typeMismatch wordToJpeg) /\
    snackbar s' ≠ Some unsupportedConversion.
Proof.
  eexists. split; [vm_compute; reflexivity |].
  repeat split. intros H; discriminate H.
Qed.

(** C2, amended. Under a document preset [convertFile] always clears the
    result and starts no load; the notice is the unsupported-conversion
    message when the declared type of the file is the input type of the
    preset, and the type-mismatch message otherwise. *)
Theorem convertFile_document_preset (P : ConverterConfig) (F : File) (s : State) :
  document P ->
  outputUrl (convertFile P F s) = None /\
  tasks (convertFile P F s) = tasks s /\
  (type F = inputMime P -> snackbar (convertFile P F s) = Some unsupportedConversion) /\
  (type F ≠ inputMime P -> snackbar (convertFile P F s) = Some (typeMismatch P)).
Proof.
  intros D. destruct (decide (type F = inputMime P)) as [E | N].
  - rewrite (convertFile_document P F E D).
    split; [reflexivity | split; [reflexivity | split]].
    + reflexivity.
    + intros N; destruct (N E).
  - rewrite (convertFile_mismatch P F N).
    split; [reflexivity | split; [reflexivity | split]].
    + intros E; destruct (N E).
    + reflexivity.
Qed.

Lemma convertFile_document_preset_witness :
  document wordToJpeg /\
  outputUrl (convertFile wordToJpeg docxFile init) = None /\
  tasks (convertFile wordToJpeg docxFile init) = tasks init /\
  (type docxFile = inputMime wordToJpeg ->
   snackbar (convertFile wordToJpeg docxFile init) = Some unsupportedConversion) /\
  (type docxFile ≠ inputMime wordToJpeg ->
   snackbar (convertFile wordToJpeg docxFile init) = Some (typeMismatch wordToJpeg)).
Proof.
  split.
  - left; reflexivity.
  - apply (convertFile_document_preset wordToJpeg docxFile init). left; reflexivity.
Defined.

(** ** Selection and reset *)

(** What a tab click does to each part of the state: the selection moves,
    the result and the unused [error] hook are cleared, nothing is
    converted again, and the snackbar and its timeout stay as they are. *)
Lemma tabClick_fields (index : nat) (s : State) :
  activeIndex (tabClick index s) = index /\
  outputUrl (tabClick index s) = None /\
  error (tabClick index s) = None /\
  tasks (tabClick index s) = tasks s /\
  snackbar (tabClick index s) = snackbar s /\
  timer (tabClick index s) = timer s.
Proof. repeat split. Qed.

(** What [handleClear] does to each part of the state. *)
Lemma handleClear_fields (s : State) :
  activeIndex (handleClear s) = activeIndex s /\
  outputUrl (handleClear s) = None /\
  error (handleClear s) = None /\
  tasks (handleClear s) = tasks s /\
  snackbar (handleClear s) = snackbar s /\
  timer (handleClear s) = timer s.
Proof. repeat split. Qed.

(** X11. The [error] hook is never set to a message: it is [null] in
    every reachable state, so clearing it clears nothing. *)
Lemma error_always_null (host : Host) (s : State) :
  reachable host s -> error s = None.
Proof.
  induction 1 as [| s ev s' _ IH Hstep]; [reflexivity |].
  unfold dispatch in Hstep. destruct (activeConverter s) as [conv |]; [| discriminate].
  injection Hstep as <-.
  unfold snackbarEffect. case_decide; cbn [error setTimer].
  all: destruct ev; cbn [handle]; unfold handleFileChange, handleDrop, convertFirst,
         handleDragOver, handleDragEnter, handleDragLeave, handleClear, progress,
         img_onload, convertFile, tick, andThen, skip;
       try rewrite converterTabs_lookup;
       repeat case_match; simplify_eq; cbn; auto.
Qed.

(** C4. Switching the preset while a notice is showing: after the upload
    of a JPEG file under "PNG to JPG" the type-mismatch notice is up; a
    click on the first tab moves the selection and clears the result, and
    the notice is still there. *)
Theorem tab_switch_leaves_notice :
  exists s1 s2,
    dispatch sampleHost (FileChange [jpegFile]) init = Some s1 /\
    snackbar s1 = Some (typeMismatch pngToJpg) /\
    dispatch sampleHost (TabClick 0) s1 = Some s2 /\
    activeIndex s2 = 0 /\
    outputUrl s2 = None /\
    tasks s2 = [] /\
    snackbar s2 = Some (typeMismatch pngToJpg).
Proof.
  eexists; eexists.
  split; [vm_compute; reflexivity |].
  split; [reflexivity |].
  split; [vm_compute; reflexivity |].
  repeat split.
Qed.

(** C5. [Clear] while a notice is showing: the result is cleared and the
    selection stays, and the notice is still there. *)
Theorem clear_leaves_notice :
  exists s1 s2,
    dispatch sampleHost (FileChange [jpegFile]) init = Some s1 /\
    snackbar s1 = Some (typeMismatch pngToJpg) /\
    dispatch sampleHost ClearClick s1 = Some s2 /\
    activeIndex s2 = activeIndex s1 /\
    outputUrl s2 = None /\
    snackbar s2 = Some (typeMismatch pngToJpg).
Proof.
  eexists; eexists.
  split; [vm_compute; reflexivity |].
  split; [reflexivity |].
  split; [vm_compute; reflexivity |].
  repeat split.
Qed.

(** ** The selection is always an index of the table *)

(** An event either leaves the selection alone or is a click on an
    existing tab, which selects that tab. *)
Lemma handle_activeIndex (host : Host) (conv : ConverterConfig) (ev : Event) (s : State) :
  activeIndex (handle host conv ev s) = activeIndex s \/
  exists k, ev = TabClick k /\ k < length converters /\
    activeIndex (handle host conv ev s) = k.
Proof.
  destruct ev; cbn [handle].
  - rewrite converterTabs_lookup. case_decide.
    + right. exists k. auto.
    + left. reflexivity.
  - left; reflexivity.
  - left. unfold handleFileChange, convertFirst. case_match; [| reflexivity].
    apply convertFile_activeIndex.
  - left; reflexivity.
  - left; reflexivity.
  - left; reflexivity.
  - left. unfold handleDrop, convertFirst, andThen. case_match; [| reflexivity].
    rewrite convertFile_activeIndex. reflexivity.
  - left; reflexivity.
  - left. case_match; reflexivity.
  - left. unfold progress, img_onload, andThen, skip. repeat case_match; reflexivity.
  - left. unfold tick. repeat case_match; reflexivity.
Qed.

Lemma snackbarEffect_activeIndex (prev : option string) (s : State) :
  activeIndex (snackbarEffect prev s) = activeIndex s.
Proof. unfold snackbarEffect. case_decide; reflexivity. Qed.

Lemma dispatch_activeIndex (host : Host) (ev : Event) (s s' : State) :
  dispatch host ev s = Some s' ->
  activeIndex s' = activeIndex s \/
  exists k, ev = TabClick k /\ k < length converters /\ activeIndex s' = k.
Proof.
  unfold dispatch. destruct (activeConverter s) as [conv |]; [| discriminate].
  intros [= <-]. rewrite snackbarEffect_activeIndex. apply handle_activeIndex.
Qed.

Lemma reachable_activeIndex (host : Host) (s : State) :
  reachable host s -> activeIndex s < length converters.
Proof.
  induction 1 as [| s ev s' _ IH Hstep].
  - cbn. lia.
  - destruct (dispatch_activeIndex host ev s s' Hstep) as [-> | (k & _ & Hk & ->)]; assumption.
Qed.

(** C10. The selection starts at 1 and in every reachable state it is an
    index of the six-element table, so [activeConverter] is defined and
    every event can be handled; an event that changes the selection is a
    click on an existing tab and selects that tab, and the [More...]
    button leaves the selection alone. *)
Theorem activeIndex_always_valid (host : Host) (s : State) :
  reachable host s ->
  activeIndex init = 1 /\
  length converters = 6 /\
  activeIndex s < length converters /\
  is_Some (activeConverter s) /\
  (forall ev, exists s', dispatch host ev s = Some s' /\
     (activeIndex s' = activeIndex s \/
      exists k, ev = TabClick k /\ k < length converters /\ activeIndex s' = k)) /\
  (exists s', dispatch host MoreClick s = Some s' /\ activeIndex s' = activeIndex s).
Proof.
  intros Hr. pose proof (reachable_activeIndex host s Hr) as Hlt.
  assert (is_Some (activeConverter s)) as [conv Hconv]
    by (apply lookup_lt_is_Some; exact Hlt).
  split; [reflexivity |]. split; [reflexivity |]. split; [exact Hlt |].
  split; [eauto |]. split.
  - intros ev. unfold dispatch at 1. rewrite Hconv. eexists. split; [reflexivity |].
    apply (dispatch_activeIndex host ev s). unfold dispatch. rewrite Hconv. reflexivity.
  - unfold dispatch. rewrite Hconv. eexists. split; [reflexivity |].
    apply snackbarEffect_activeIndex.
Qed.

Lemma activeIndex_always_valid_witness :
  reachable sampleHost init /\
  activeIndex init = 1 /\
  length converters = 6 /\
  activeIndex init < length converters /\
  is_Some (activeConverter init) /\
  (forall ev, exists s', dispatch sampleHost ev init = Some s' /\
     (activeIndex s' = activeIndex init \/
      exists k, ev = TabClick k /\ k < length converters /\ activeIndex s' = k)) /\
  (exists s', dispatch sampleHost MoreClick init = Some s' /\ activeIndex s' = activeIndex init).
Proof.
  split.
  - apply reachable_init.
  - apply (activeIndex_always_valid sampleHost init). apply reachable_init.
Defined.

(** ** Canvas arithmetic *)

Lemma over_alpha_on_opaque (src dst : RGBA) :
  alpha dst = 255%Z -> alpha (over src dst) = 255%Z.
Proof.
  intros H. unfold over. cbn [alpha]. rewrite H.
  replace (alpha src * 255 + 255 * (255 - alpha src))%Z with (255 * 255)%Z by ring.
  reflexivity.
Qed.

(** A fully transparent source pixel leaves an opaque destination as it is. *)
Lemma over_transparent_on_opaque (src dst : RGBA) :
  alpha src = 0%Z -> alpha dst = 255%Z -> over src dst = dst.
Proof.
  intros Hs Hd. destruct dst as [r g b a]. cbn [alpha] in Hd. subst a.
  unfold over. cbn [red green blue alpha]. rewrite Hs.
  cbn [Z.eqb Z.mul Z.add Z.sub Z.opp Z.pos_sub Pos.mul Pos.add Z.div].
  replace (Z.eqb _ 0) with false by reflexivity.
  f_equal.
  all: try (rewrite Z.mul_0_r, Z.mul_0_l, Z.add_0_l, <- Z.mul_assoc;
            apply Z.div_mul; discriminate).
Qed.

(** A fully opaque source pixel replaces the destination. *)
Lemma over_opaque (src dst : RGBA) :
  alpha src = 255%Z -> over src dst = src.
Proof.
  intros Hs. destruct src as [r g b a]. cbn [alpha] in Hs. subst a.
  unfold over. cbn [red green blue alpha].
  replace (255 * 255 + alpha dst * (255 - 255))%Z with 65025%Z by ring.
  cbn [Z.eqb].
  assert (forall c d : Z,
    ((c * 255 * 255 + d * alpha dst * (255 - 255)) / 65025)%Z = c) as Hch.
  { intros c d. replace (c * 255 * 255 + d * alpha dst * (255 - 255))%Z
      with (c * 65025)%Z by ring.
    apply Z.div_mul. discriminate. }
  rewrite !Hch. reflexivity.
Qed.

Lemma inside_origin (w h i j : nat) :
  i < w -> j < h -> Canvas.inside 0 0 w h i j = true.
Proof.
  intros Hi Hj. unfold Canvas.inside.
  rewrite !andb_true_iff, !Nat.leb_le, !Nat.ltb_lt. lia.
Qed.

Lemma canvasFor_size (img : Image.t) :
  Canvas.width (canvasFor img) = Image.width img /\
  Canvas.height (canvasFor img) = Image.height img.
Proof. split; reflexivity. Qed.

Lemma rendered_size (P : ConverterConfig) (img : Image.t) :
  Canvas.width (rendered P img) = Image.width img /\
  Canvas.height (rendered P img) = Image.height img.
Proof. unfold rendered. destruct (String.eqb _ _); split; reflexivity. Qed.

(** The white rectangle covers every pixel of the canvas. *)
Lemma white_fill_px (img : Image.t) (i j : nat) :
  i < Image.width img -> j < Image.height img ->
  Canvas.px (Canvas.fillRect 0 0 (Image.width img) (Image.height img)
               (Canvas.set_fillStyle "white" (canvasFor img))) i j = white.
Proof.
  intros Hi Hj. cbn [Canvas.fillRect Canvas.px Canvas.set_fillStyle Canvas.css_color
                      String.eqb Ascii.eqb Bool.eqb Canvas.width Canvas.height
                      Canvas.fillStyle canvasFor Canvas.set_height Canvas.set_width].
  rewrite (inside_origin _ _ i j Hi Hj). reflexivity.
Qed.

(** ** [toDataURL] *)

Lemma toDataURL_nonempty (host : Host) (c : Canvas.t) (mime : string) (q : Q) :
  toDataURL host c mime q ≠ "".
Proof.
  unfold toDataURL. destruct (_ || _); [discriminate |].
  destruct (serialize host c mime q) as [[actual payload] |]; discriminate.
Qed.

(** ** The asynchronous part of a conversion *)

Section Conversion.
Context (host : Host).

Lemma img_onload_with_context (P : ConverterConfig) (img : Image.t) (s : State) :
  getContext2d host (canvasFor img) = true ->
  img_onload host P img s =
  setOutputUrl (Some (toDataURL host (rendered P img) (outputMime P) quality)) s.
Proof.
  intros H. unfold img_onload, rendered. fold (canvasFor img). rewrite H.
  destruct (String.eqb _ _); reflexivity.
Qed.

Lemma img_onload_without_context (P : ConverterConfig) (img : Image.t) (s : State) :
  getContext2d host (canvasFor img) = false ->
  img_onload host P img s = s.
Proof. intros H. unfold img_onload. fold (canvasFor img). rewrite H. reflexivity. Qed.

Lemma progress_reading (k : nat) (s : State) (F : File) (P : ConverterConfig) (src : string) :
  tasks s !! k = Some (Reading F P) -> readAsDataURL host F = Some src ->
  progress host k s = setTasks (<[k := Loading src P]> (tasks s)) s.
Proof. intros Hk Hr. unfold progress. rewrite Hk, Hr. reflexivity. Qed.

Lemma progress_loading (k : nat) (s : State) (src : string) (P : ConverterConfig)
    (img : Image.t) :
  tasks s !! k = Some (Loading src P) -> decode host src = Some img ->
  progress host k s = img_onload host P img (setTasks (delete k (tasks s)) s).
Proof. intros Hk Hd. unfold progress. rewrite Hk, Hd. reflexivity. Qed.

(** When the file has the right type, the preset is no document preset
    and both loads succeed, a whole conversion comes down to [img.onload]
    on the state it started from. *)
Lemma convertAndLoad_img_onload (P : ConverterConfig) (F : File) (s : State)
    (src : string) (img : Image.t) :
  type F = inputMime P -> ~ document P ->
  readAsDataURL host F = Some src -> decode host src = Some img ->
  convertAndLoad host P F s = img_onload host P img s.
Proof.
  intros HT HD HR HI. unfold convertAndLoad, andThen.
  rewrite (convertFile_supported P F s HT HD).
  assert (progress host (length (tasks s)) (setTasks (tasks s ++ [Reading F P]) s)
          = setTasks (tasks s ++ [Loading src P]) s) as ->.
  { rewrite (progress_reading _ _ F P src);
      [| cbn [tasks setTasks]; apply list_lookup_middle; reflexivity | exact HR].
    cbn [tasks setTasks]. rewrite insert_app_r_alt by lia.
    rewrite Nat.sub_diag. reflexivity. }
  rewrite (progress_loading _ _ src P img);
    [| cbn [tasks setTasks]; apply list_lookup_middle; reflexivity | exact HI].
  cbn [tasks setTasks]. rewrite delete_middle, app_nil_r.
  f_equal. destruct s; reflexivity.
Qed.

End Conversion.

(** ** Successful conversions *)

(** C3, as stated, fails: a successful conversion sets the result and
    leaves a notice that is showing where it is.  Here a JPEG upload under
    "PNG to JPG" raises the type-mismatch notice, and the PNG converted
    next leaves it up. *)
Lemma successful_conversion_keeps_notice :
  exists s1 s2,
    dispatch sampleHost (FileChange [jpegFile]) init = Some s1 /\
    snackbar s1 = Some (typeMismatch pngToJpg) /\
    run sampleHost [FileChange [pngFile]; Progress 0; Progress 0] s1 = Some s2 /\
    s2 = convertAndLoad sampleHost pngToJpg pngFile s1 /\
    outputUrl s2 = Some "data:image/jpeg;base64,/9j/4AAQSkZJRg==" /\
    snackbar s2 = Some (typeMismatch pngToJpg) /\
    snackbar s2 ≠ None.
Proof.
  eexists; eexists.
  split; [vm_compute; reflexivity |].
  split; [reflexivity |].
  split; [vm_compute; reflexivity |].
  split; [vm_compute; reflexivity |].
  split; [reflexivity |].
  split; [reflexivity |].
  discriminate.
Qed.

(** C3, amended. On every successful conversion the result is set to the
    encoded output and the notice is left as it was: none is set, and one
    that is showing is not cleared.  In particular a valid PNG under
    "PNG to JPG" yields a non-empty result, the canvas encoded as
    [image/jpeg], and no notice when none was showing. *)
Theorem conversion_success (host : Host) (P : ConverterConfig) (F : File) (s : State)
    (src : string) (img : Image.t) :
  type F = inputMime P -> ~ document P ->
  readAsDataURL host F = Some src -> decode host src = Some img ->
  getContext2d host (canvasFor img) = true ->
  outputUrl (convertAndLoad host P F s)
    = Some (toDataURL host (rendered P img) (outputMime P) quality) /\
  snackbar (convertAndLoad host P F s) = snackbar s /\
  (P = pngToJpg ->
   exists dataUrl,
     outputUrl (convertAndLoad host P F s) = Some dataUrl /\
     dataUrl = toDataURL host (rendered pngToJpg img) "image/jpeg" quality /\
     dataUrl ≠ "" /\
     (snackbar s = None -> snackbar (convertAndLoad host P F s) = None)).
Proof.
  intros HT HD HR HI HC.
  rewrite (convertAndLoad_img_onload host P F s src img HT HD HR HI).
  rewrite (img_onload_with_context host P img s HC).
  split; [reflexivity |]. split; [reflexivity |].
  intros ->. eexists. split; [reflexivity |]. split; [reflexivity |].
  split; [apply toDataURL_nonempty |]. intros H; exact H.
Qed.

Lemma conversion_success_witness :
  type pngFile = inputMime pngToJpg /\ ~ document pngToJpg /\
  readAsDataURL sampleHost pngFile = Some "data:image/png;base64,iVBORw0KGgo=" /\
  decode sampleHost "data:image/png;base64,iVBORw0KGgo=" = Some sampleImage /\
  getContext2d sampleHost (canvasFor sampleImage) = true /\
  outputUrl (convertAndLoad sampleHost pngToJpg pngFile init)
    = Some (toDataURL sampleHost (rendered pngToJpg sampleImage) (outputMime pngToJpg) quality) /\
  snackbar (convertAndLoad sampleHost pngToJpg pngFile init) = snackbar init /\
  (pngToJpg = pngToJpg ->
   exists dataUrl,
     outputUrl (convertAndLoad sampleHost pngToJpg pngFile init) = Some dataUrl /\
     dataUrl = toDataURL sampleHost (rendered pngToJpg sampleImage) "image/jpeg" quality /\
     dataUrl ≠ "" /\
     (snackbar init = None -> snackbar (convertAndLoad sampleHost pngToJpg pngFile init) = None)).
Proof.
  assert (~ document pngToJpg) as HD by (intros [H | H]; discriminate H).
  split; [reflexivity |]. split; [exact HD |].
  split; [reflexivity |]. split; [reflexivity |]. split; [reflexivity |].
  apply (conversion_success sampleHost pngToJpg pngFile init
           "data:image/png;base64,iVBORw0KGgo=" sampleImage);
    [reflexivity | exact HD | reflexivity | reflexivity | reflexivity].
Defined.

(** C9. On the supported path the canvas has the natural width and height
    of the decoded bitmap, and the result is that canvas serialised to the
    output type of the preset at quality 0.9. *)
Theorem canvas_size_and_encoding (host : Host) (P : ConverterConfig) (F : File)
    (s : State) (src : string) (img : Image.t) :
  type F = inputMime P -> ~ document P ->
  readAsDataURL host F = Some src -> decode host src = Some img ->
  getContext2d host (canvasFor img) = true ->
  Canvas.width (rendered P img) = Image.width img /\
  Canvas.height (rendered P img) = Image.height img /\
  outputUrl (convertAndLoad host P F s)
    = Some (toDataURL host (rendered P img) (outputMime P) (Qmake 9 10)).
Proof.
  intros HT HD HR HI HC.
  destruct (rendered_size P img) as [Hw Hh].
  split; [exact Hw |]. split; [exact Hh |].
  rewrite (convertAndLoad_img_onload host P F s src img HT HD HR HI).
  rewrite (img_onload_with_context host P img s HC). reflexivity.
Qed.

Lemma canvas_size_and_encoding_witness :
  type pngFile = inputMime pngToJpg /\ ~ document pngToJpg /\
  readAsDataURL sampleHost pngFile = Some "data:image/png;base64,iVBORw0KGgo=" /\
  decode sampleHost "data:image/png;base64,iVBORw0KGgo=" = Some sampleImage /\
  getContext2d sampleHost (canvasFor sampleImage) = true /\
  Canvas.width (rendered pngToJpg sampleImage) = Image.width sampleImage /\
  Canvas.height (rendered pngToJpg sampleImage) = Image.height sampleImage /\
  outputUrl (convertAndLoad sampleHost pngToJpg pngFile init)
    = Some (toDataURL sampleHost (rendered pngToJpg sampleImage) (outputMime pngToJpg)
              (Qmake 9 10)).
Proof.
  assert (~ document pngToJpg) as HD by (intros [H | H]; discriminate H).
  split; [reflexivity |]. split; [exact HD |].
  split; [reflexivity |]. split; [reflexivity |]. split; [reflexivity |].
  apply (canvas_size_and_encoding sampleHost pngToJpg pngFile init
           "data:image/png;base64,iVBORw0KGgo=" sampleImage);
    [reflexivity | exact HD | reflexivity | reflexivity | reflexivity].
Defined.

(** C8. When no 2d context can be had in an otherwise valid conversion,
    the conversion changes nothing: the state after it is the state before
    it, result and notice included. *)
Theorem no_context_is_silent (host : Host) (P : ConverterConfig) (F : File) (s : State)
    (src : string) (img : Image.t) :
  type F = inputMime P -> ~ document P ->
  readAsDataURL host F = Some src -> decode host src = Some img ->
  getContext2d host (canvasFor img) = false ->
  convertAndLoad host P F s = s /\
  outputUrl (convertAndLoad host P F s) = outputUrl s /\
  snackbar (convertAndLoad host P F s) = snackbar s.
Proof.
  intros HT HD HR HI HC.
  rewrite (convertAndLoad_img_onload host P F s src img HT HD HR HI).
  rewrite (img_onload_without_context host P img s HC). auto.
Qed.

Lemma no_context_is_silent_witness :
  type pngFile = inputMime pngToJpg /\ ~ document pngToJpg /\
  readAsDataURL noContextHost pngFile = Some "data:image/png;base64,iVBORw0KGgo=" /\
  decode noContextHost "data:image/png;base64,iVBORw0KGgo=" = Some sampleImage /\
  getContext2d noContextHost (canvasFor sampleImage) = false /\
  convertAndLoad noContextHost pngToJpg pngFile init = init /\
  outputUrl (convertAndLoad noContextHost pngToJpg pngFile init) = outputUrl init /\
  snackbar (convertAndLoad noContextHost pngToJpg pngFile init) = snackbar init.
Proof.
  assert (~ document pngToJpg) as HD by (intros [H | H]; discriminate H).
  split; [reflexivity |]. split; [exact HD |].
  split; [reflexivity |]. split; [reflexivity |]. split; [reflexivity |].
  apply (no_context_is_silent noContextHost pngToJpg pngFile init
           "data:image/png;base64,iVBORw0KGgo=" sampleImage);
    [reflexivity | exact HD | reflexivity | reflexivity | reflexivity].
Defined.

(** C6. When the output type is [image/jpeg], the canvas handed to the
    encoder is the bitmap drawn over a white rectangle that covers the
    whole canvas: every pixel is opaque, and where the bitmap is fully
    transparent the pixel is white, not black. *)
Theorem white_background_for_jpeg (host : Host) (P : ConverterConfig) (img : Image.t)
    (s : State) :
  outputMime P = "image/jpeg" ->
  getContext2d host (canvasFor img) = true ->
  outputUrl (img_onload host P img s)
    = Some (toDataURL host (rendered P img) "image/jpeg" quality) /\
  rendered P img
    = Canvas.drawImage img 0 0
        (Canvas.fillRect 0 0 (Image.width img) (Image.height img)
           (Canvas.set_fillStyle "white" (canvasFor img))) /\
  forall i j, i < Image.width img -> j < Image.height img ->
    Canvas.px (Canvas.fillRect 0 0 (Image.width img) (Image.height img)
                 (Canvas.set_fillStyle "white" (canvasFor img))) i j = white /\
    alpha (Canvas.px (rendered P img) i j) = 255%Z /\
    (alpha (Image.pixels img i j) = 0%Z ->
     Canvas.px (rendered P img) i j = white /\ Canvas.px (rendered P img) i j ≠ black).
Proof.
  intros HM HC.
  assert (rendered P img
    = Canvas.drawImage img 0 0
        (Canvas.fillRect 0 0 (Image.width img) (Image.height img)
           (Canvas.set_fillStyle "white" (canvasFor img)))) as HR.
  { unfold rendered. rewrite HM. reflexivity. }
  split.
  { rewrite (img_onload_with_context host P img s HC), HM. reflexivity. }
  split; [exact HR |].
  intros i j Hi Hj.
  pose proof (white_fill_px img i j Hi Hj) as HW.
  split; [exact HW |].
  rewrite HR. cbn [Canvas.drawImage Canvas.px].
  rewrite (inside_origin _ _ i j Hi Hj).
  change (Canvas.width (Canvas.fillRect _ _ _ _ _)) with (Image.width img).
  change (Canvas.height (Canvas.fillRect _ _ _ _ _)) with (Image.height img).
  rewrite (inside_origin _ _ i j Hi Hj). cbn [andb].
  rewrite HW, !Nat.sub_0_r. split.
  - apply over_alpha_on_opaque. reflexivity.
  - intros Ha. rewrite (over_transparent_on_opaque _ white Ha eq_refl).
    split; [reflexivity | discriminate].
Qed.

Lemma white_background_for_jpeg_witness :
  outputMime pngToJpg = "image/jpeg" /\
  getContext2d sampleHost (canvasFor sampleImage) = true /\
  outputUrl (img_onload sampleHost pngToJpg sampleImage init)
    = Some (toDataURL sampleHost (rendered pngToJpg sampleImage) "image/jpeg" quality) /\
  rendered pngToJpg sampleImage
    = Canvas.drawImage sampleImage 0 0
        (Canvas.fillRect 0 0 (Image.width sampleImage) (Image.height sampleImage)
           (Canvas.set_fillStyle "white" (canvasFor sampleImage))) /\
  forall i j, i < Image.width sampleImage -> j < Image.height sampleImage ->
    Canvas.px (Canvas.fillRect 0 0 (Image.width sampleImage) (Image.height sampleImage)
                 (Canvas.set_fillStyle "white" (canvasFor sampleImage))) i j = white /\
    alpha (Canvas.px (rendered pngToJpg sampleImage) i j) = 255%Z /\
    (alpha (Image.pixels sampleImage i j) = 0%Z ->
     Canvas.px (rendered pngToJpg sampleImage) i j = white /\
     Canvas.px (rendered pngToJpg sampleImage) i j ≠ black).
Proof.
  split; [reflexivity |]. split; [reflexivity |].
  apply (white_background_for_jpeg sampleHost pngToJpg sampleImage init);
    reflexivity.
Defined.

(** Without the fill the same pixel would stay transparent black: under a
    preset whose output is not [image/jpeg] nothing is painted first. *)
Lemma no_fill_for_other_outputs (P : ConverterConfig) (img : Image.t) (i j : nat) :
  outputMime P ≠ "image/jpeg" ->
  i < Image.width img -> j < Image.height img ->
  Canvas.px (rendered P img) i j = over (Image.pixels img i j) transparent.
Proof.
  intros HM Hi Hj. unfold rendered.
  apply String.eqb_neq in HM. rewrite HM.
  cbn [Canvas.drawImage Canvas.px].
  rewrite (inside_origin _ _ i j Hi Hj).
  change (Canvas.width (canvasFor img)) with (Image.width img).
  change (Canvas.height (canvasFor img)) with (Image.height img).
  rewrite (inside_origin _ _ i j Hi Hj), !Nat.sub_0_r. reflexivity.
Qed.

(** ** The snackbar timeout *)

Lemma typeMismatch_nonempty (P : ConverterConfig) : typeMismatch P ≠ "".
Proof. unfold typeMismatch. cbn. discriminate. Qed.

(** A handler leaves the snackbar alone, clears it, or sets it to a
    non-empty message. *)
Lemma handle_snackbar (host : Host) (conv : ConverterConfig) (ev : Event) (s : State) :
  snackbar (handle host conv ev s) = snackbar s \/
  snackbar (handle host conv ev s) = None \/
  exists m, snackbar (handle host conv ev s) = Some m /\ m ≠ "".
Proof.
  assert (forall F s0, snackbar (convertFile conv F s0) = snackbar s0 \/
            snackbar (convertFile conv F s0) = None \/
            exists m, snackbar (convertFile conv F s0) = Some m /\ m ≠ "") as HC.
  { intros F s0. unfold convertFile. repeat case_match.
    - right; right. eexists. split; [reflexivity | apply typeMismatch_nonempty].
    - right; right. eexists. split; [reflexivity | discriminate].
    - left; reflexivity. }
  destruct ev; cbn [handle].
  - rewrite converterTabs_lookup. case_decide; left; reflexivity.
  - left; reflexivity.
  - unfold handleFileChange, convertFirst. case_match; [apply HC | left; reflexivity].
  - left; reflexivity.
  - left; reflexivity.
  - left; reflexivity.
  - unfold handleDrop, convertFirst, andThen. case_match; [| left; reflexivity].
    apply (HC _ (setIsDragging false s)).
  - left; reflexivity.
  - left. case_match; reflexivity.
  - left. unfold progress, img_onload, andThen, skip. repeat case_match; reflexivity.
  - unfold tick. repeat case_match; (left; reflexivity) || (right; left; reflexivity).
Qed.

(** Only the passing of time touches the timeout directly. *)
Lemma handle_timer (host : Host) (conv : ConverterConfig) (ev : Event) (s : State) :
  ev ≠ Tick -> timer (handle host conv ev s) = timer s.
Proof.
  intros HT. destruct ev; cbn [handle]; try (destruct HT; reflexivity).
  all: try rewrite converterTabs_lookup.
  all: unfold handleFileChange, handleDrop, convertFirst, handleDragOver,
         handleDragEnter, handleDragLeave, handleClear, progress, img_onload,
         convertFile, andThen, skip.
  all: repeat case_match; simplify_eq; reflexivity.
Qed.

(** The completion of a load leaves the snackbar alone. *)
Lemma progress_snackbar (host : Host) (k : nat) (s : State) :
  snackbar (progress host k s) = snackbar s.
Proof. unfold progress, img_onload, andThen, skip. repeat case_match; reflexivity. Qed.

Lemma progress_timer (host : Host) (k : nat) (s : State) :
  timer (progress host k s) = timer s.
Proof. unfold progress, img_onload, andThen, skip. repeat case_match; reflexivity. Qed.

(** A step that changes the snackbar to a message starts a fresh timeout. *)
Lemma dispatch_new_notice (host : Host) (ev : Event) (s s' : State) (msg : string) :
  dispatch host ev s = Some s' -> snackbar s' = Some msg -> snackbar s ≠ Some msg ->
  timer s' = Some snackbarDelay /\ activeIndex s' < length converters.
Proof.
  intros Hd Hs Hn. pose proof (dispatch_activeIndex host ev s s' Hd) as Hi.
  unfold dispatch in Hd. destruct (activeConverter s) as [conv |] eqn:Hconv; [| discriminate].
  apply lookup_lt_Some in Hconv. injection Hd as <-. split.
  - unfold snackbarEffect in *. case_decide as Heq.
    + rewrite Heq in Hs. destruct (Hn Hs).
    + cbn [snackbar setTimer] in Hs.
      destruct (handle_snackbar host conv ev s) as [H | [H | (m & H & Hm)]].
      * destruct (Heq H).
      * rewrite H in Hs. discriminate Hs.
      * cbn [timer setTimer]. rewrite H. cbn [truthy].
        apply String.eqb_neq in Hm. rewrite Hm. reflexivity.
  - destruct Hi as [-> | (k & _ & Hk & ->)]; assumption.
Qed.

(** A user action that leaves the snackbar as it is, in particular one
    that sets the message already showing, leaves the timeout running. *)
Lemma reissue_keeps_timer (host : Host) (ev : Event) (s s' : State) :
  userAction ev = true -> dispatch host ev s = Some s' ->
  snackbar s' = snackbar s -> timer s' = timer s.
Proof.
  intros Hu Hd Hs. unfold dispatch in Hd.
  destruct (activeConverter s) as [conv |]; [| discriminate]. injection Hd as <-.
  unfold snackbarEffect in *. case_decide as Heq.
  - apply handle_timer. intros ->. discriminate Hu.
  - cbn [snackbar setTimer] in Hs. destruct (Heq Hs).
Qed.

Section Countdown.
Context (host : Host).

(** Once the snackbar is empty and no timeout is pending, time and load
    completions keep it empty. *)
Lemma stays_cleared (evs : list Event) : forall x : State,
  activeIndex x < length converters ->
  Forall (fun ev => userAction ev = false) evs ->
  snackbar x = None -> timer x = None ->
  exists x', run host evs x = Some x' /\ snackbar x' = None.
Proof.
  induction evs as [| ev evs IH]; intros x Hi Hq Hs Ht.
  - exists x. split; [reflexivity | exact Hs].
  - apply Forall_cons in Hq as [Hev Hq].
    destruct (lookup_lt_is_Some_2 converters _ Hi) as [conv Hconv].
    change (activeConverter x = Some conv) in Hconv.
    cbn [run]. unfold dispatch. rewrite Hconv.
    apply IH; [| exact Hq | |].
    + rewrite snackbarEffect_activeIndex.
      destruct (handle_activeIndex host conv ev x) as [-> | (k & -> & _)];
        [exact Hi | discriminate Hev].
    + destruct ev; try discriminate Hev; unfold snackbarEffect; cbn [handle].
      * rewrite progress_snackbar. rewrite decide_True by reflexivity.
        rewrite progress_snackbar. exact Hs.
      * unfold tick. rewrite Ht. rewrite decide_True by reflexivity. exact Hs.
    + destruct ev; try discriminate Hev; unfold snackbarEffect; cbn [handle].
      * rewrite progress_snackbar. rewrite decide_True by reflexivity.
        rewrite progress_timer. exact Ht.
      * unfold tick. rewrite Ht. rewrite decide_True by reflexivity. exact Ht.
Qed.

End Countdown.

Section Expiry.
Context (host : Host) (msg : string).

(** With [r] milliseconds left on the timeout of a notice, time and load
    completions keep the notice up for [r] milliseconds and not longer. *)
Lemma countdown (evs : list Event) : forall (x : State) (r : nat),
  activeIndex x < length converters ->
  Forall (fun ev => userAction ev = false) evs ->
  snackbar x = Some msg -> timer x = Some r -> 1 <= r ->
  exists x', run host evs x = Some x' /\
    snackbar x' = if decide (elapsed evs < r) then Some msg else None.
Proof.
  induction evs as [| ev evs IH]; intros x r Hi Hq Hs Ht Hr.
  - exists x. split; [reflexivity |].
    cbn [elapsed]. rewrite decide_True by lia. exact Hs.
  - apply Forall_cons in Hq as [Hev Hq].
    destruct (lookup_lt_is_Some_2 converters _ Hi) as [conv Hconv].
    change (activeConverter x = Some conv) in Hconv.
    cbn [run]. unfold dispatch. rewrite Hconv.
    destruct ev; try discriminate Hev; cbn [handle elapsed].
    + (* a load completes *)
      apply IH; [| exact Hq | | | exact Hr].
      * rewrite snackbarEffect_activeIndex.
        destruct (handle_activeIndex host conv (Progress k) x) as [H | (k' & H & _)];
          [cbn [handle] in H; rewrite H; exact Hi | discriminate H].
      * unfold snackbarEffect. rewrite progress_snackbar.
        rewrite decide_True by reflexivity. rewrite progress_snackbar. exact Hs.
      * unfold snackbarEffect. rewrite progress_snackbar.
        rewrite decide_True by reflexivity. rewrite progress_timer. exact Ht.
    + (* a millisecond passes *)
      unfold tick. rewrite Ht.
      destruct r as [| [| r]]; [lia | |].
      * (* the timeout is due *)
        destruct (stays_cleared host evs
                    (snackbarEffect (snackbar x) ((setTimer None >>> setSnackbar None) x)))
          as (x' & Hrun & Hx').
        -- rewrite snackbarEffect_activeIndex. exact Hi.
        -- exact Hq.
        -- unfold snackbarEffect. case_decide; reflexivity.
        -- unfold snackbarEffect. case_decide; reflexivity.
        -- exists x'. split; [exact Hrun |].
           rewrite decide_False by lia. exact Hx'.
      * destruct (IH (snackbarEffect (snackbar x) (setTimer (Some (S r)) x)) (S r))
          as (x' & Hrun & Hx').
        -- rewrite snackbarEffect_activeIndex. exact Hi.
        -- exact Hq.
        -- unfold snackbarEffect. rewrite decide_True by reflexivity. exact Hs.
        -- unfold snackbarEffect. rewrite decide_True by reflexivity. reflexivity.
        -- lia.
        -- exists x'. split; [exact Hrun |]. rewrite Hx'.
           destruct (decide (elapsed evs < S r)), (decide (S (elapsed evs) < S (S r)));
             (reflexivity || lia).
Qed.

End Expiry.

(** C7, as stated, fails: when [convertFile] sets the notice that is
    already showing, the timeout of the first setting keeps running.  The
    notice set 2000 ms after the first one is gone 1000 ms later. *)
Lemma reissued_notice_hides_early :
  exists s1 s2 s3,
    run sampleHost (FileChange [jpegFile] :: replicate 2000 Tick) init = Some s1 /\
    snackbar s1 = Some (typeMismatch pngToJpg) /\
    dispatch sampleHost (FileChange [jpegFile]) s1 = Some s2 /\
    snackbar s2 = Some (typeMismatch pngToJpg) /\
    run sampleHost (replicate 1000 Tick) s2 = Some s3 /\
    elapsed (replicate 1000 Tick) = 1000 /\
    snackbar s3 = None.
Proof.
  eexists; eexists; eexists.
  split; [vm_compute; reflexivity |].
  split; [reflexivity |].
  split; [vm_compute; reflexivity |].
  split; [reflexivity |].
  split; [vm_compute; reflexivity |].
  split; vm_compute; reflexivity.
Qed.

(** C7, amended. When a step changes the snackbar to a notice, and no user
    action follows, the notice stays up while fewer than 3000 ms have
    passed and is cleared once 3000 ms have passed.  (Setting the notice
    that is already showing changes nothing and starts no new timeout:
    [reissue_keeps_timer].) *)
Theorem notice_auto_hide (host : Host) (s : State) (ev : Event) (s' : State)
    (msg : string) (evs : list Event) :
  dispatch host ev s = Some s' ->
  snackbar s' = Some msg -> snackbar s ≠ Some msg ->
  Forall (fun e => userAction e = false) evs ->
  snackbarDelay = 3000 /\
  exists s'', run host evs s' = Some s'' /\
    snackbar s'' = if decide (elapsed evs < snackbarDelay) then Some msg else None.
Proof.
  intros Hd Hs Hn Hq. split; [reflexivity |].
  destruct (dispatch_new_notice host ev s s' msg Hd Hs Hn) as [Ht Hi].
  apply (countdown host msg evs s' snackbarDelay Hi Hq Hs Ht).
  unfold snackbarDelay. lia.
Qed.

Lemma notice_auto_hide_witness :
  dispatch sampleHost (FileChange [jpegFile]) init = Some afterMismatch /\
  snackbar afterMismatch = Some (typeMismatch pngToJpg) /\
  snackbar init ≠ Some (typeMismatch pngToJpg) /\
  Forall (fun e => userAction e = false) [Tick; Progress 0; Tick] /\
  snackbarDelay = 3000 /\
  exists s'', run sampleHost [Tick; Progress 0; Tick] afterMismatch = Some s'' /\
    snackbar s'' = if decide (elapsed [Tick; Progress 0; Tick] < snackbarDelay)
                   then Some (typeMismatch pngToJpg) else None.
Proof.
  split; [reflexivity |]. split; [reflexivity |].
  split; [discriminate |].
  split; [repeat constructor |].
  apply (notice_auto_hide sampleHost init (FileChange [jpegFile]) afterMismatch
           (typeMismatch pngToJpg) [Tick; Progress 0; Tick]);
    [reflexivity | reflexivity | discriminate | repeat constructor].
Defined.

(** ** Every notice is on a running timeout *)

(** In every reachable state a notice that is showing has a timeout
    pending with between 1 and 3000 ms left, and without a notice there is
    no timeout. *)
Lemma reachable_timer (host : Host) (s : State) :
  reachable host s ->
  match snackbar s with
  | Some _ => exists r, timer s = Some r /\ 1 <= r <= snackbarDelay
  | None => timer s = None
  end.
Proof.
  induction 1 as [| s ev s' _ IH Hstep]; [reflexivity |].
  unfold dispatch in Hstep. destruct (activeConverter s) as [conv |]; [| discriminate].
  injection Hstep as <-. unfold snackbarEffect. case_decide as Heq.
  - (* the snackbar did not change *)
    rewrite Heq.
    assert (ev = Tick \/ ev ≠ Tick) as [-> | Hev]
      by (destruct ev; (left; reflexivity) || (right; discriminate)).
    + cbn [handle] in *. unfold tick in *.
      destruct (timer s) as [[| [| r]] |] eqn:Ht; cbn in Heq |- *.
      * rewrite <- Heq. reflexivity.
      * rewrite <- Heq. reflexivity.
      * destruct (snackbar s); [| discriminate IH].
        destruct IH as (r' & [= <-] & Hr). exists (S r). split; [reflexivity | lia].
      * rewrite Ht. exact IH.
    + rewrite (handle_timer host conv ev s Hev). exact IH.
  - (* the snackbar changed *)
    cbn [snackbar timer setTimer].
    destruct (handle_snackbar host conv ev s) as [H | [H | (m & H & Hm)]].
    + destruct (Heq H).
    + rewrite H. reflexivity.
    + rewrite H. cbn [truthy]. apply String.eqb_neq in Hm. rewrite Hm.
      exists snackbarDelay. split; [reflexivity | unfold snackbarDelay; lia].
Qed.

(** X12. A notice never outlives 3000 ms without a user action, whichever
    call of [setSnackbar] one counts from: in every reachable state with a
    notice there are [r] milliseconds left, [r] between 1 and 3000, and
    with no user action the notice is up while fewer than [r] ms have
    passed and gone from then on. *)
Lemma notice_hides_within_delay (host : Host) (s : State) (msg : string) :
  reachable host s -> snackbar s = Some msg ->
  exists r, 1 <= r <= snackbarDelay /\
    forall evs, Forall (fun e => userAction e = false) evs ->
      exists s', run host evs s = Some s' /\
        snackbar s' = if decide (elapsed evs < r) then Some msg else None.
Proof.
  intros Hr Hs. pose proof (reachable_timer host s Hr) as Ht. rewrite Hs in Ht.
  destruct Ht as (r & Ht & Hb). exists r. split; [exact Hb |].
  intros evs Hq.
  apply (countdown host msg evs s r (reachable_activeIndex host s Hr) Hq Hs Ht). lia.
Qed.

(** * Further properties of the page *)

(** ** What the stored notice and result can be *)

Lemma convertFile_snackbar (conv : ConverterConfig) (F : File) (s : State) :
  snackbar (convertFile conv F s) = snackbar s \/
  snackbar (convertFile conv F s) = Some (typeMismatch conv) \/
  snackbar (convertFile conv F s) = Some unsupportedConversion.
Proof. unfold convertFile. repeat case_match; auto. Qed.

Lemma handle_snackbar_values (host : Host) (conv : ConverterConfig) (ev : Event) (s : State) :
  snackbar (handle host conv ev s) = snackbar s \/
  snackbar (handle host conv ev s) = None \/
  snackbar (handle host conv ev s) = Some (typeMismatch conv) \/
  snackbar (handle host conv ev s) = Some unsupportedConversion.
Proof.
  destruct ev; cbn [handle].
  - rewrite converterTabs_lookup. case_decide; left; reflexivity.
  - left; reflexivity.
  - unfold handleFileChange, convertFirst. case_match; [| left; reflexivity].
    destruct (convertFile_snackbar conv f s) as [HS | [HS | HS]]; auto.
  - left; reflexivity.
  - left; reflexivity.
  - left; reflexivity.
  - unfold handleDrop, convertFirst, andThen. case_match; [| left; reflexivity].
    destruct (convertFile_snackbar conv f (setIsDragging false s)) as [HS | [HS | HS]]; auto.
  - left; reflexivity.
  - left. case_match; reflexivity.
  - left. apply progress_snackbar.
  - unfold tick. repeat case_match; auto.
Qed.

(** X1. The notice is always one of the two messages of [convertFile]:
    in every reachable state the snackbar is empty, holds the
    unsupported-conversion message, or holds the type-mismatch message of
    an entry of the table. *)
Theorem notices_come_from_convertFile (host : Host) (s : State) :
  reachable host s ->
  snackbar s = None \/
  snackbar s = Some unsupportedConversion \/
  exists P, P ∈ converters /\ snackbar s = Some (typeMismatch P).
Proof.
  induction 1 as [| s ev s' _ IH Hstep]; [left; reflexivity |].
  unfold dispatch in Hstep.
  destruct (activeConverter s) as [conv |] eqn:Hconv; [| discriminate].
  apply list_elem_of_lookup_2 in Hconv. injection Hstep as <-.
  assert (snackbar (snackbarEffect (snackbar s) (handle host conv ev s))
          = snackbar (handle host conv ev s)) as ->
    by (unfold snackbarEffect; case_decide; reflexivity).
  destruct (handle_snackbar_values host conv ev s) as [H | [H | [H | H]]]; rewrite H.
  - exact IH.
  - left; reflexivity.
  - right; right. exists conv. split; [exact Hconv | reflexivity].
  - right; left; reflexivity.
Qed.

Lemma notices_come_from_convertFile_witness :
  reachable sampleHost afterMismatch /\
  (snackbar afterMismatch = None \/
   snackbar afterMismatch = Some unsupportedConversion \/
   exists P, P ∈ converters /\ snackbar afterMismatch = Some (typeMismatch P)).
Proof.
  split.
  - apply (reachable_step sampleHost init (FileChange [jpegFile]));
      [apply reachable_init | reflexivity].
  - apply (notices_come_from_convertFile sampleHost afterMismatch).
    apply (reachable_step sampleHost init (FileChange [jpegFile]));
      [apply reachable_init | reflexivity].
Defined.

Lemma toDataURL_prefix (host : Host) (c : Canvas.t) (mime : string) (q : Q) :
  exists rest, toDataURL host c mime q = "data:" +:+ rest.
Proof.
  unfold toDataURL. destruct (_ || _); [exists ","; reflexivity |].
  destruct (serialize host c mime q) as [[actual payload] |].
  - eexists; reflexivity.
  - exists ","; reflexivity.
Qed.

Lemma handle_outputUrl (host : Host) (conv : ConverterConfig) (ev : Event) (s : State) :
  outputUrl (handle host conv ev s) = outputUrl s \/
  outputUrl (handle host conv ev s) = None \/
  exists c mime, outputUrl (handle host conv ev s) = Some (toDataURL host c mime quality).
Proof.
  destruct ev; cbn [handle].
  - rewrite converterTabs_lookup. case_decide; [right; left | left]; reflexivity.
  - left; reflexivity.
  - unfold handleFileChange, convertFirst, convertFile. repeat case_match; auto.
  - left; reflexivity.
  - left; reflexivity.
  - left; reflexivity.
  - unfold handleDrop, convertFirst, convertFile, andThen. repeat case_match; auto.
  - right; left; reflexivity.
  - case_match; [right; left | left]; reflexivity.
  - unfold progress, img_onload, andThen, skip. repeat case_match; auto.
    all: right; right; eexists; eexists; reflexivity.
  - left. unfold tick. repeat case_match; reflexivity.
Qed.

Lemma stored_result_prefix (host : Host) (s : State) (url : string) :
  reachable host s -> outputUrl s = Some url ->
  (exists rest, url = "data:" +:+ rest) /\ url ≠ "".
Proof.
  intros Hr. revert url.
  induction Hr as [| s ev s' _ IH Hstep]; intros url Hu; [discriminate Hu |].
  unfold dispatch in Hstep. destruct (activeConverter s) as [conv |]; [| discriminate].
  injection Hstep as <-.
  assert (outputUrl (snackbarEffect (snackbar s) (handle host conv ev s))
          = outputUrl (handle host conv ev s)) as Heff
    by (unfold snackbarEffect; case_decide; reflexivity).
  rewrite Heff in Hu.
  destruct (handle_outputUrl host conv ev s) as [H | [H | (c & mime & H)]];
    rewrite H in Hu.
  - apply IH. exact Hu.
  - discriminate Hu.
  - injection Hu as <-. split; [apply toDataURL_prefix | apply toDataURL_nonempty].
Qed.

Lemma stored_notice_nonempty (host : Host) (s : State) (m : string) :
  reachable host s -> snackbar s = Some m -> m ≠ "".
Proof.
  intros Hr. revert m.
  induction Hr as [| s ev s' _ IH Hstep]; intros m Hm; [discriminate Hm |].
  unfold dispatch in Hstep. destruct (activeConverter s) as [conv |]; [| discriminate].
  injection Hstep as <-.
  assert (snackbar (snackbarEffect (snackbar s) (handle host conv ev s))
          = snackbar (handle host conv ev s)) as Heff
    by (unfold snackbarEffect; case_decide; reflexivity).
  rewrite Heff in Hm.
  destruct (handle_snackbar host conv ev s) as [H | [H | (m' & H & Hm')]];
    rewrite H in Hm.
  - apply IH. exact Hm.
  - discriminate Hm.
  - injection Hm as <-. exact Hm'.
Qed.

(** X2. A stored result is always a data URL, hence a non-empty string. *)
Theorem result_is_data_url (host : Host) (s : State) (url : string) :
  reachable host s -> outputUrl s = Some url ->
  (exists rest, url = "data:" +:+ rest) /\ url ≠ "".
Proof. intros Hr Hu. exact (stored_result_prefix host s url Hr Hu). Qed.

Lemma result_is_data_url_witness :
  reachable sampleHost (convertAndLoad sampleHost pngToJpg pngFile init) /\
  outputUrl (convertAndLoad sampleHost pngToJpg pngFile init)
    = Some "data:image/jpeg;base64,/9j/4AAQSkZJRg==" /\
  (exists rest, "data:image/jpeg;base64,/9j/4AAQSkZJRg==" = "data:" +:+ rest) /\
  "data:image/jpeg;base64,/9j/4AAQSkZJRg==" ≠ "".
Proof.
  assert (reachable sampleHost (convertAndLoad sampleHost pngToJpg pngFile init)) as Hr.
  { apply (reachable_step sampleHost
             (setTasks [Loading "data:image/png;base64,iVBORw0KGgo=" pngToJpg] init)
             (Progress 0)); [| reflexivity].
    apply (reachable_step sampleHost afterUpload (Progress 0)); [| reflexivity].
    apply (reachable_step sampleHost init (FileChange [pngFile]));
      [apply reachable_init | reflexivity]. }
  split; [exact Hr |]. split; [reflexivity |].
  apply (result_is_data_url sampleHost
           (convertAndLoad sampleHost pngToJpg pngFile init)
           "data:image/jpeg;base64,/9j/4AAQSkZJRg==" Hr).
  reflexivity.
Defined.

(** ** Loads in flight *)

Lemma convertFile_tasks (conv : ConverterConfig) (F : File) (s : State) :
  tasks (convertFile conv F s) = tasks s \/
  (tasks (convertFile conv F s) = tasks s ++ [Reading F conv] /\
   type F = inputMime conv /\ ~ document conv).
Proof.
  destruct (decide (type F = inputMime conv)) as [HT | HT].
  - destruct (String.eqb_spec (label conv) "Word to JPEG") as [E | N1].
    { left. rewrite (convertFile_document conv F HT (or_introl E)). reflexivity. }
    destruct (String.eqb_spec (label conv) "JPEG to Word") as [E | N2].
    { left. rewrite (convertFile_document conv F HT (or_intror E)). reflexivity. }
    assert (~ document conv) as HD by (intros [E | E]; [apply N1 | apply N2]; exact E).
    right. rewrite (convertFile_supported conv F s HT HD). auto.
  - left. rewrite (convertFile_mismatch conv F HT). reflexivity.
Qed.





(** ** The rendered page *)

(** X4. In every reachable state the page renders; exactly the tab of the
    active preset is marked active, its label is the heading, and the file
    input accepts the input type of that preset. *)
Theorem render_marks_active_tab (host : Host) (s : State) :
  reachable host s ->
  exists v conv,
    render s = Some v /\ converters !! activeIndex s = Some conv /\
    heading v = label conv /\ accept v = inputMime conv /\
    length (tabButtons v) = length converters /\
    forall k, k < length converters ->
      exists item, converters !! k = Some item /\
        tabButtons v !! k = Some (label item, bool_decide (k = activeIndex s)).
Proof.
  intros Hr. pose proof (reachable_activeIndex host s Hr) as Hlt.
  destruct (lookup_lt_is_Some_2 converters _ Hlt) as [conv Hconv].
  unfold render, activeConverter. rewrite Hconv.
  eexists; exists conv. split; [reflexivity |]. split; [reflexivity |].
  cbn [heading accept tabButtons]. split; [reflexivity |]. split; [reflexivity |].
  split; [apply length_imap |].
  intros k Hk. destruct (lookup_lt_is_Some_2 converters _ Hk) as [item Hitem].
  exists item. split; [exact Hitem |].
  rewrite list_lookup_imap, Hitem. cbn [fmap option_fmap option_map]. do 2 f_equal.
  apply bool_decide_ext. split; intros ->; reflexivity.
Qed.

Lemma render_marks_active_tab_witness :
  reachable sampleHost init /\
  exists v conv,
    render init = Some v /\ converters !! activeIndex init = Some conv /\
    heading v = label conv /\ accept v = inputMime conv /\
    length (tabButtons v) = length converters /\
    forall k, k < length converters ->
      exists item, converters !! k = Some item /\
        tabButtons v !! k = Some (label item, bool_decide (k = activeIndex init)).
Proof.
  split.
  - apply reachable_init.
  - apply (render_marks_active_tab sampleHost init). apply reachable_init.
Defined.

(** X5. In every reachable state the page shows what is stored: the
    snackbar shows exactly the stored notice, and the preview is there
    exactly when a result is stored; the preview and the link both point
    to the result, and the link downloads it as [converted.] followed by
    the extension of the preset that is active now. *)
Theorem render_shows_notice_and_result (host : Host) (s : State) (v : View)
    (conv : ConverterConfig) :
  reachable host s -> render s = Some v -> activeConverter s = Some conv ->
  snackbarText v = snackbar s /\
  dragActive v = isDragging s /\
  preview v =
    (fun url => {| previewSrc := url; href := url;
                   download := "converted." +:+ downloadExt conv;
                   downloadText := "⬇ Download " +:+ toUpperCase (downloadExt conv) |})
      <$> outputUrl s.
Proof.
  intros Hr Hv Hconv. unfold render in Hv. rewrite Hconv in Hv. injection Hv as <-.
  cbn [snackbarText dragActive preview]. split; [| split; [reflexivity |]].
  - destruct (snackbar s) as [m |] eqn:Hs; [| reflexivity].
    pose proof (stored_notice_nonempty host s m Hr Hs) as Hm.
    cbn [truthy]. apply String.eqb_neq in Hm. rewrite Hm. reflexivity.
  - destruct (outputUrl s) as [url |] eqn:Hu; [| reflexivity].
    destruct (stored_result_prefix host s url Hr Hu) as [_ Hn].
    cbn [truthy fmap option_fmap option_map]. apply String.eqb_neq in Hn. rewrite Hn.
    reflexivity.
Qed.

Lemma render_shows_notice_and_result_witness :
  reachable sampleHost afterMismatch /\
  render afterMismatch = Some mismatchView /\
  activeConverter afterMismatch = Some pngToJpg /\
  snackbarText mismatchView = snackbar afterMismatch /\
  dragActive mismatchView = isDragging afterMismatch /\
  preview mismatchView =
    (fun url => {| previewSrc := url; href := url;
                   download := "converted." +:+ downloadExt pngToJpg;
                   downloadText := "⬇ Download " +:+ toUpperCase (downloadExt pngToJpg) |})
      <$> outputUrl afterMismatch.
Proof.
  assert (reachable sampleHost afterMismatch) as Hr
    by (apply (reachable_step sampleHost init (FileChange [jpegFile]));
          [apply reachable_init | reflexivity]).
  split; [exact Hr |]. split; [reflexivity |]. split; [reflexivity |].
  apply (render_shows_notice_and_result sampleHost afterMismatch mismatchView pngToJpg Hr);
    reflexivity.
Defined.

(** ** Loads that fail, uploads without a file *)

Lemma snackbarEffect_same (prev : option string) (x : State) :
  snackbar x = prev -> snackbarEffect prev x = x.
Proof. intros H. unfold snackbarEffect. rewrite decide_True by exact H. reflexivity. Qed.

Lemma progress_out_of_range (host : Host) (k : nat) (s : State) :
  length (tasks s) <= k -> progress host k s = s.
Proof.
  intros H. unfold progress. rewrite (lookup_ge_None_2 (tasks s) k H). reflexivity.
Qed.

(** X6. A file of the right type that cannot be read, or whose content is
    no image, is dropped without a trace: after the conversion the state
    is what it was, with no result, no notice and no load left. *)
Theorem failed_load_is_silent (host : Host) (P : ConverterConfig) (F : File) (s : State) :
  type F = inputMime P -> ~ document P ->
  readAsDataURL host F = None \/
    (exists src, readAsDataURL host F = Some src /\ decode host src = None) ->
  convertAndLoad host P F s = s.
Proof.
  intros HT HD Hfail. unfold convertAndLoad, andThen.
  rewrite (convertFile_supported P F s HT HD).
  assert (forall x : State, tasks x = tasks s ++ [Reading F P] ->
            setTasks (tasks s) x = s -> 
            readAsDataURL host F = None ->
            progress host (length (tasks s)) (progress host (length (tasks s)) x) = s) as Hread.
  { intros x Hx Hs Hr.
    assert (progress host (length (tasks s)) x = s) as ->.
    { unfold progress. rewrite Hx, list_lookup_middle by reflexivity. rewrite Hr.
      rewrite delete_middle, app_nil_r. exact Hs. }
    apply progress_out_of_range. lia. }
  destruct Hfail as [Hr | (src & Hr & Hd)].
  - apply Hread; [reflexivity | destruct s; reflexivity | exact Hr].
  - assert (progress host (length (tasks s)) (setTasks (tasks s ++ [Reading F P]) s)
            = setTasks (tasks s ++ [Loading src P]) s) as ->.
    { rewrite (progress_reading host _ _ F P src);
        [| cbn [tasks setTasks]; apply list_lookup_middle; reflexivity | exact Hr].
      cbn [tasks setTasks]. rewrite insert_app_r_alt by lia.
      rewrite Nat.sub_diag. reflexivity. }
    unfold progress. cbn [tasks setTasks].
    rewrite list_lookup_middle by reflexivity. rewrite Hd.
    rewrite delete_middle, app_nil_r. destruct s; reflexivity.
Qed.

Lemma failed_load_is_silent_witness :
  type pngFile = inputMime pngToJpg /\ ~ document pngToJpg /\
  (readAsDataURL unreadableHost pngFile = None \/
   (exists src, readAsDataURL unreadableHost pngFile = Some src /\
                decode unreadableHost src = None)) /\
  convertAndLoad unreadableHost pngToJpg pngFile afterMismatch = afterMismatch.
Proof.
  assert (~ document pngToJpg) as HD by (intros [H | H]; discriminate H).
  split; [reflexivity |]. split; [exact HD |]. split; [left; reflexivity |].
  apply (failed_load_is_silent unreadableHost pngToJpg pngFile afterMismatch);
    [reflexivity | exact HD | left; reflexivity].
Defined.

Lemma convertFile_setIsDragging (conv : ConverterConfig) (F : File) (b : bool) (s : State) :
  convertFile conv F (setIsDragging b s) = setIsDragging b (convertFile conv F s).
Proof. unfold convertFile. repeat case_match; reflexivity. Qed.

(** X7. Dropping files converts them exactly as picking them does: the
    state after the drop is the state after the pick with [isDragging]
    reset. *)
Theorem drop_is_pick_without_drag (host : Host) (files : list File) (s : State) :
  dispatch host (Drop files) s
  = setIsDragging false <$> dispatch host (FileChange files) s.
Proof.
  unfold dispatch. destruct (activeConverter s) as [conv |]; [| reflexivity].
  cbn [fmap option_fmap option_map handle]. f_equal.
  unfold handleDrop, handleFileChange, convertFirst, andThen.
  destruct (files !! 0) as [F |].
  - rewrite convertFile_setIsDragging.
    unfold snackbarEffect. cbn [snackbar setIsDragging].
    case_decide; reflexivity.
  - unfold skip, snackbarEffect. cbn [snackbar setIsDragging].
    case_decide; reflexivity.
Qed.

(** X8. Only the first file of a selection or of a drop is converted, the
    others are ignored; a selection without files changes nothing. *)
Theorem upload_takes_first_file_only (host : Host) (F : File) (rest : list File)
    (s : State) :
  dispatch host (FileChange (F :: rest)) s = dispatch host (FileChange [F]) s /\
  dispatch host (Drop (F :: rest)) s = dispatch host (Drop [F]) s /\
  dispatch host (FileChange []) s = (fun _ => s) <$> activeConverter s.
Proof.
  split; [reflexivity |]. split; [reflexivity |].
  unfold dispatch. destruct (activeConverter s) as [conv |]; [| reflexivity].
  cbn [handle handleFileChange convertFirst lookup list_lookup skip
       fmap option_fmap option_map].
  rewrite snackbarEffect_same by reflexivity. reflexivity.
Qed.

(** ** What leaves the notice alone *)

(** X9. Apart from an upload and the passing of time, no event touches
    the notice or its timeout: tab clicks, [Clear], the cross, drag events
    and the completion of a load leave both as they are. *)
Theorem only_uploads_and_time_touch_notice (host : Host) (ev : Event) (s s' : State) :
  isUpload ev = false -> ev ≠ Tick ->
  dispatch host ev s = Some s' ->
  snackbar s' = snackbar s /\ timer s' = timer s.
Proof.
  intros Hu Ht Hd. unfold dispatch in Hd.
  destruct (activeConverter s) as [conv |]; [| discriminate]. injection Hd as <-.
  assert (snackbar (handle host conv ev s) = snackbar s) as Hs.
  { destruct ev; try discriminate Hu; try (destruct Ht; reflexivity); cbn [handle].
    - rewrite converterTabs_lookup. case_decide; reflexivity.
    - reflexivity.
    - reflexivity.
    - reflexivity.
    - reflexivity.
    - reflexivity.
    - case_match; reflexivity.
    - apply progress_snackbar. }
  rewrite (snackbarEffect_same _ _ Hs). split; [exact Hs |].
  apply handle_timer. exact Ht.
Qed.

Lemma only_uploads_and_time_touch_notice_witness :
  isUpload (TabClick 3) = false /\ TabClick 3 ≠ Tick /\
  dispatch sampleHost (TabClick 3) afterMismatch
    = Some (tabClick 3 afterMismatch) /\
  snackbar (tabClick 3 afterMismatch) = snackbar afterMismatch /\
  timer (tabClick 3 afterMismatch) = timer afterMismatch.
Proof.
  split; [reflexivity |]. split; [discriminate |]. split; [reflexivity |].
  apply (only_uploads_and_time_touch_notice sampleHost (TabClick 3) afterMismatch
           (tabClick 3 afterMismatch));
    [reflexivity | discriminate | reflexivity].
Defined.

(** ** Loads are never cancelled *)

(** A user action starts at most a new load; the loads in flight keep
    their places. *)
Lemma handle_user_tasks (host : Host) (conv : ConverterConfig) (ev : Event) (s : State) :
  userAction ev = true ->
  exists extra, tasks (handle host conv ev s) = tasks s ++ extra.
Proof.
  intros Hu.
  assert (forall F x, tasks x = tasks s ->
            exists extra, tasks (convertFile conv F x) = tasks s ++ extra) as HC.
  { intros F x Hx. destruct (convertFile_tasks conv F x) as [-> | (-> & _)]; rewrite Hx.
    - exists []. rewrite app_nil_r. reflexivity.
    - eexists. reflexivity. }
  destruct ev; try discriminate Hu; cbn [handle].
  - exists []. rewrite app_nil_r, converterTabs_lookup. case_decide; reflexivity.
  - exists []. rewrite app_nil_r. reflexivity.
  - unfold handleFileChange, convertFirst. case_match; [apply HC; reflexivity |].
    exists []. rewrite app_nil_r. reflexivity.
  - exists []. rewrite app_nil_r. reflexivity.
  - exists []. rewrite app_nil_r. reflexivity.
  - exists []. rewrite app_nil_r. reflexivity.
  - unfold handleDrop, convertFirst, andThen. case_match; [apply HC; reflexivity |].
    exists []. rewrite app_nil_r. reflexivity.
  - exists []. rewrite app_nil_r. reflexivity.
  - exists []. rewrite app_nil_r. case_match; reflexivity.
Qed.

Lemma run_app (host : Host) (evs1 evs2 : list Event) : forall s : State,
  run host (evs1 ++ evs2) s = run host evs1 s ≫= run host evs2.
Proof.
  induction evs1 as [| ev evs1 IH]; intros s; [reflexivity |].
  cbn [app run]. destruct (dispatch host ev s); [apply IH | reflexivity].
Qed.

Lemma run_user_actions (host : Host) (evs : list Event) : forall s : State,
  activeIndex s < length converters ->
  Forall (fun ev => userAction ev = true) evs ->
  exists s' extra, run host evs s = Some s' /\
    tasks s' = tasks s ++ extra /\ activeIndex s' < length converters.
Proof.
  induction evs as [| ev evs IH]; intros s Hi Hu.
  - exists s, []. rewrite app_nil_r. auto.
  - apply Forall_cons in Hu as [Hev Hu].
    destruct (lookup_lt_is_Some_2 converters _ Hi) as [conv Hconv].
    change (activeConverter s = Some conv) in Hconv.
    cbn [run]. unfold dispatch. rewrite Hconv.
    destruct (handle_user_tasks host conv ev s Hev) as [extra1 H1].
    destruct (IH (snackbarEffect (snackbar s) (handle host conv ev s)))
      as (s' & extra2 & Hrun & Ht & Hi'); [| exact Hu |].
    + rewrite snackbarEffect_activeIndex.
      destruct (handle_activeIndex host conv ev s) as [-> | (k & _ & Hk & ->)]; assumption.
    + exists s', (extra1 ++ extra2). split; [exact Hrun |]. split; [| exact Hi'].
      rewrite Ht. unfold snackbarEffect. case_decide; cbn [tasks setTimer];
        rewrite H1, app_assoc; reflexivity.
Qed.

Lemma dispatch_progress (host : Host) (k : nat) (s : State) :
  activeIndex s < length converters ->
  dispatch host (Progress k) s = Some (progress host k s).
Proof.
  intros Hi. destruct (lookup_lt_is_Some_2 converters _ Hi) as [conv Hconv].
  change (activeConverter s = Some conv) in Hconv.
  unfold dispatch. rewrite Hconv. cbn [handle].
  rewrite snackbarEffect_same by apply progress_snackbar. reflexivity.
Qed.

(** X10. No user action cancels a load.  Whatever the user does after
    picking a valid file (switching tabs, [Clear], further uploads), when
    the load completes the result is set, and it is encoded for the preset
    that was active at the pick, not for the one active at completion. *)
Theorem load_survives_user_actions (host : Host) (P : ConverterConfig) (F : File)
    (s : State) (src : string) (img : Image.t) (evs : list Event) :
  activeConverter s = Some P ->
  type F = inputMime P -> ~ document P ->
  readAsDataURL host F = Some src -> decode host src = Some img ->
  getContext2d host (canvasFor img) = true ->
  Forall (fun ev => userAction ev = true) evs ->
  exists s',
    run host (FileChange [F] :: evs
              ++ [Progress (length (tasks s)); Progress (length (tasks s))]) s = Some s' /\
    outputUrl s' = Some (toDataURL host (rendered P img) (outputMime P) quality).
Proof.
  intros HP HT HD HR HI HC Hu.
  pose proof (lookup_lt_Some _ _ _ HP) as Hi.
  cbn [run]. unfold dispatch at 1. rewrite HP.
  cbn [handle handleFileChange convertFirst lookup list_lookup].
  rewrite (convertFile_supported P F s HT HD).
  rewrite snackbarEffect_same by reflexivity.
  destruct (run_user_actions host evs (setTasks (tasks s ++ [Reading F P]) s) Hi Hu)
    as (s1 & extra & Hrun & Ht & Hi1).
  cbn [tasks setTasks] in Ht. rewrite <- app_assoc in Ht. cbn [app] in Ht.
  rewrite run_app, Hrun. cbn [mbind option_bind run].
  rewrite (dispatch_progress host _ s1 Hi1).
  rewrite (progress_reading host _ s1 F P src);
    [| rewrite Ht; apply list_lookup_middle; reflexivity | exact HR].
  rewrite dispatch_progress by exact Hi1.
  rewrite (progress_loading host _ _ src P img); [| | exact HI].
  - rewrite (img_onload_with_context host P img _ HC). eexists. split; reflexivity.
  - cbn [tasks setTasks]. apply list_lookup_insert_eq.
    rewrite Ht, length_app. cbn [length]. lia.
Qed.

Lemma load_survives_user_actions_witness :
  activeConverter init = Some pngToJpg /\
  type pngFile = inputMime pngToJpg /\ ~ document pngToJpg /\
  readAsDataURL sampleHost pngFile = Some "data:image/png;base64,iVBORw0KGgo=" /\
  decode sampleHost "data:image/png;base64,iVBORw0KGgo=" = Some sampleImage /\
  getContext2d sampleHost (canvasFor sampleImage) = true /\
  Forall (fun ev => userAction ev = true) [TabClick 0; ClearClick] /\
  exists s',
    run sampleHost (FileChange [pngFile] :: [TabClick 0; ClearClick]
                    ++ [Progress (length (tasks init)); Progress (length (tasks init))]) init
      = Some s' /\
    outputUrl s'
      = Some (toDataURL sampleHost (rendered pngToJpg sampleImage) (outputMime pngToJpg)
                quality).
Proof.
  assert (~ document pngToJpg) as HD by (intros [H | H]; discriminate H).
  split; [reflexivity |]. split; [reflexivity |]. split; [exact HD |].
  split; [reflexivity |]. split; [reflexivity |]. split; [reflexivity |].
  split; [repeat constructor |].
  apply (load_survives_user_actions sampleHost pngToJpg pngFile init
           "data:image/png;base64,iVBORw0KGgo=" sampleImage [TabClick 0; ClearClick]);
    [reflexivity | reflexivity | exact HD | reflexivity | reflexivity | reflexivity
    | repeat constructor].
Defined.

(** What the witness above comes to on the page: the JPEG encoding of the
    picked PNG lands while "JPG to PNG" is selected, and is offered for
    download as [converted.png]. *)
Lemma stale_result_under_new_preset :
  exists s' v p,
    run sampleHost [FileChange [pngFile]; TabClick 0; Progress 0; Progress 0] init
      = Some s' /\
    activeConverter s' = Some {| label := "JPG to PNG"; inputMime := "image/jpeg";
                                 outputMime := "image/png"; downloadExt := "png" |} /\
    render s' = Some v /\ preview v = Some p /\
    href p = "data:image/jpeg;base64,/9j/4AAQSkZJRg==" /\
    download p = "converted.png".
Proof.
  eexists; eexists; eexists.
  split; [vm_compute; reflexivity |].
  split; [reflexivity |].
  split; [vm_compute; reflexivity |].
  split; [reflexivity |]. split; reflexivity.
Qed.

(** ** Pixels *)

(** X13. Whatever the preset, an opaque pixel of the bitmap reaches the
    encoder unchanged and at its own position: the image is drawn at the
    origin of a canvas of its own size, and the white fill does not show
    through. *)
Theorem opaque_pixels_copied (P : ConverterConfig) (img : Image.t) (i j : nat) :
  i < Image.width img -> j < Image.height img ->
  alpha (Image.pixels img i j) = 255%Z ->
  Canvas.px (rendered P img) i j = Image.pixels img i j.
Proof.
  intros Hi Hj Ha. unfold rendered.
  assert (forall c : Canvas.t,
            Canvas.width c = Image.width img -> Canvas.height c = Image.height img ->
            Canvas.px (Canvas.drawImage img 0 0 c) i j = Image.pixels img i j) as Hdraw.
  { intros c Hw Hh. cbn [Canvas.drawImage Canvas.px]. rewrite Hw, Hh.
    rewrite (inside_origin _ _ i j Hi Hj). cbn [andb].
    rewrite !Nat.sub_0_r. apply over_opaque. exact Ha. }
  destruct (String.eqb _ _); apply Hdraw; reflexivity.
Qed.

Lemma opaque_pixels_copied_witness :
  1 < Image.width sampleImage /\ 0 < Image.height sampleImage /\
  alpha (Image.pixels sampleImage 1 0) = 255%Z /\
  Canvas.px (rendered pngToJpg sampleImage) 1 0 = Image.pixels sampleImage 1 0.
Proof.
  split; [cbn; lia |]. split; [cbn; lia |]. split; [reflexivity |].
  apply (opaque_pixels_copied pngToJpg sampleImage 1 0); [cbn; lia | cbn; lia | reflexivity].
Defined.

(** ** Instances of the invariants above *)

Lemma error_always_null_witness :
  reachable sampleHost afterMismatch /\ error afterMismatch = None.
Proof.
  assert (reachable sampleHost afterMismatch) as Hr
    by (apply (reachable_step sampleHost init (FileChange [jpegFile]));
          [apply reachable_init | reflexivity]).
  split; [exact Hr |].
  apply (error_always_null sampleHost afterMismatch Hr).
Defined.

Lemma notice_hides_within_delay_witness :
  reachable sampleHost afterMismatch /\
  snackbar afterMismatch = Some (typeMismatch pngToJpg) /\
  exists r, 1 <= r <= snackbarDelay /\
    forall evs, Forall (fun e => userAction e = false) evs ->
      exists s', run sampleHost evs afterMismatch = Some s' /\
        snackbar s' = if decide (elapsed evs < r) then Some (typeMismatch pngToJpg) else None.
Proof.
  assert (reachable sampleHost afterMismatch) as Hr
    by (apply (reachable_step sampleHost init (FileChange [jpegFile]));
          [apply reachable_init | reflexivity]).
  split; [exact Hr |]. split; [reflexivity |].
  apply (notice_hides_within_delay sampleHost afterMismatch (typeMismatch pngToJpg) Hr).
  reflexivity.
Defined.
